(** * The Smithsonian MCP server: formatters, adapters and dispatcher

    A shallow embedding of [src/smithsonian_mcp_server/server.py].  The
    server receives a tool name and an argument map, issues one GET
    request against the Smithsonian Open Access API and renders the JSON
    answer as text.

    Python values that the code handles are the values [json.loads] (and
    the tool-calling protocol) can produce; they are the type [json]
    below.  An exception is a value of type [exn]; a computation that may
    raise returns a [res]; the adapters, which also talk to the network,
    live in [io], which threads the list of requests issued so far. *)

From Stdlib Require Import List String Ascii ZArith Bool Lia.
From Stdlib Require Import Floats DecimalString.
Import ListNotations.
Open Scope list_scope.
Open Scope string_scope.
Set Warnings "-register-all".

(** ** Python values *)

(** A decoded JSON document.  A Python [dict] keeps its keys in insertion
    order and holds each key once; it is an association list here, and
    [dict_lookup] reads the first binding of a key. *)
Inductive json : Type :=
| JNull
| JBool (b : bool)
| JInt (n : Z)
| JFloat (x : float)
| JStr (s : string)
| JList (l : list json)
| JDict (d : list (string * json)).

(** An instance of Python's [Exception]: the name of its class and the
    text [str(e)] gives. *)
Record exn : Type := mk_exn { exn_type : string; exn_str : string }.

Definition AttributeError (msg : string) : exn := mk_exn "AttributeError" msg.
Definition TypeError (msg : string) : exn := mk_exn "TypeError" msg.
Definition ValueError (msg : string) : exn := mk_exn "ValueError" msg.

(** The outcome of a computation: a value, or a raised exception. *)
Inductive res (A : Type) : Type :=
| Ok (a : A)
| Raise (e : exn).
Arguments Ok {A} a.
Arguments Raise {A} e.

Definition res_bind {A B : Type} (m : res A) (k : A -> res B) : res B :=
  match m with
  | Ok a => k a
  | Raise e => Raise e
  end.

Declare Scope res_scope.
Delimit Scope res_scope with res.
Notation "x <- m ;; k" := (res_bind m (fun x => k))
  (at level 61, m at next level, right associativity) : res_scope.

(** A [for] loop over a list whose body may raise: the loop state is
    threaded through the iterations and the first exception ends it. *)
Fixpoint for_each {A S : Type} (xs : list A) (body : A -> S -> res S) (s : S)
  : res S :=
  match xs with
  | [] => Ok s
  | x :: xs' =>
      match body x s with
      | Ok s' => for_each xs' body s'
      | Raise e => Raise e
      end
  end.

(** ** Built-ins of the language the code relies on *)

Definition LF : string := String (ascii_of_nat 10) EmptyString.

Fixpoint dict_lookup (k : string) (d : list (string * json)) : option json :=
  match d with
  | [] => None
  | (k', v) :: d' => if String.eqb k k' then Some v else dict_lookup k d'
  end.

(** [type(v).__name__] *)
Definition type_name (v : json) : string :=
  match v with
  | JNull => "NoneType"
  | JBool _ => "bool"
  | JInt _ => "int"
  | JFloat _ => "float"
  | JStr _ => "str"
  | JList _ => "list"
  | JDict _ => "dict"
  end.

(** [bool(v)]: what [if v:] and [not v] test. *)
Definition truthy (v : json) : bool :=
  match v with
  | JNull => false
  | JBool b => b
  | JInt n => negb (n =? 0)%Z
  | JFloat x => negb (PrimFloat.eqb x 0%float)
  | JStr s => negb (String.eqb s "")
  | JList l => match l with [] => false | _ :: _ => true end
  | JDict d => match d with [] => false | _ :: _ => true end
  end.

Definition isinstance_dict (v : json) : bool :=
  match v with JDict _ => true | _ => false end.

Definition isinstance_list (v : json) : bool :=
  match v with JList _ => true | _ => false end.

(** [o.get(k, default)]: only a dict has the method. *)
Definition py_get (o : json) (k : string) (default : json) : res json :=
  match o with
  | JDict d =>
      match dict_lookup k d with
      | Some v => Ok v
      | None => Ok default
      end
  | _ => Raise (AttributeError
                  ("'" ++ type_name o ++ "' object has no attribute 'get'"))
  end.

(** The characters of a str.  A string is held as its UTF-8 bytes; a
    character is a lead byte with the continuation bytes (10xxxxxx) that
    follow it. *)
Definition is_continuation (c : ascii) : bool :=
  let n := nat_of_ascii c in ((128 <=? n) && (n <? 192))%nat.

Fixpoint take_continuation (s : string) : string * string :=
  match s with
  | String c s' =>
      if is_continuation c
      then let (t, r) := take_continuation s' in (String c t, r)
      else (EmptyString, s)
  | EmptyString => (EmptyString, EmptyString)
  end.

Fixpoint py_chars_fuel (fuel : nat) (s : string) : list string :=
  match fuel, s with
  | S fuel', String c s' =>
      let (t, r) := take_continuation s' in
      String c t :: py_chars_fuel fuel' r
  | _, _ => []
  end.

Definition py_chars (s : string) : list string :=
  py_chars_fuel (String.length s) s.

(** [iter(v)], all at once: the elements of a list, the characters of a
    str, the keys of a dict. *)
Definition py_iter (v : json) : res (list json) :=
  match v with
  | JList l => Ok l
  | JStr s => Ok (map JStr (py_chars s))
  | JDict d => Ok (map (fun kv => JStr (fst kv)) d)
  | _ => Raise (TypeError ("'" ++ type_name v ++ "' object is not iterable"))
  end.

(** [v[:n]].  A dict cannot be sliced; the error is worded as CPython
    3.11 words it. *)
Definition py_slice_to (n : nat) (v : json) : res json :=
  match v with
  | JList l => Ok (JList (firstn n l))
  | JStr s => Ok (JStr (String.concat "" (firstn n (py_chars s))))
  | JDict _ => Raise (TypeError "unhashable type: 'slice'")
  | _ => Raise (TypeError
                  ("'" ++ type_name v ++ "' object is not subscriptable"))
  end.

(** [v > 0] *)
Definition py_gt_zero (v : json) : res bool :=
  match v with
  | JInt n => Ok (0 <? n)%Z
  | JBool b => Ok b
  | JFloat x => Ok (PrimFloat.ltb 0%float x)
  | _ => Raise (TypeError
                  ("'>' not supported between instances of '"
                     ++ type_name v ++ "' and 'int'"))
  end.

(** [min(v, 1000)]: the second argument replaces the first when
    [1000 < v]. *)
Definition py_min_1000 (v : json) : res json :=
  match v with
  | JInt n => Ok (if (1000 <? n)%Z then JInt 1000 else v)
  | JBool _ => Ok v
  | JFloat x => Ok (if PrimFloat.ltb 1000%float x then JInt 1000 else v)
  | _ => Raise (TypeError
                  ("'<' not supported between instances of 'int' and '"
                     ++ type_name v ++ "'"))
  end.

Definition str_of_Z (n : Z) : string := NilZero.string_of_int (Z.to_int n).

(** What [str] and [repr] print for a float and for a str inside a
    container is the interpreter's business (shortest round-trip digits,
    quoting and escaping by the Unicode tables); the formatters take both
    as given. *)
Class PyRepr : Type := {
  repr_float : float -> string;
  repr_str : string -> string
}.

Section Rendering.
Context {R : PyRepr}.

(** [repr(v)] *)
Fixpoint py_repr (v : json) : string :=
  match v with
  | JNull => "None"
  | JBool true => "True"
  | JBool false => "False"
  | JInt n => str_of_Z n
  | JFloat x => repr_float x
  | JStr s => repr_str s
  | JList l => "[" ++ String.concat ", " (map py_repr l) ++ "]"
  | JDict d =>
      "{" ++ String.concat ", "
               (map (fun kv => repr_str (fst kv) ++ ": " ++ py_repr (snd kv)) d)
          ++ "}"
  end.

(** [str(v)], which is what an f-string field [{v}] inserts. *)
Definition py_str (v : json) : string :=
  match v with
  | JStr s => s
  | _ => py_repr v
  end.

End Rendering.

(** The rendering at which the closed examples at the end of the file
    are run: right for a NaN and for text without quotes, backslashes or
    control characters.  The examples hold no float and print no str
    inside a list or an object, so no outcome there depends on it. *)
Definition sample_repr : PyRepr :=
  {| repr_float := fun _ => "nan";
     repr_str := fun s => "'" ++ s ++ "'" |}.

(** ** The process and the network *)

(** One GET request, as the code hands it to [client.get]: the URL and
    the query parameters, in the order the code puts them in its [params]
    dict.  The client parses the URL before it sends anything; a URL made
    of the API base and a path of plain segments ([plain_segment] below)
    is the one the request goes to. *)
Record request : Type := mk_request {
  url : string;
  params : list (string * json)
}.

(** What a call finds around it: the environment as it was when the
    module was imported and as it is now, and the upstream API, which
    answers a request with the decoded body or with the exception that
    [client.get], [raise_for_status] or [response.json] raises. *)
Record world : Type := mk_world {
  import_environ : string -> option string;
  environ : string -> option string;
  upstream : request -> res json
}.

(** A computation that may raise and may issue requests: it extends the
    list of requests issued so far. *)
Definition io (A : Type) : Type := list request -> res A * list request.

Definition io_ret {A : Type} (a : A) : io A := fun tr => (Ok a, tr).

Definition io_bind {A B : Type} (m : io A) (k : A -> io B) : io B :=
  fun tr =>
    match m tr with
    | (Ok a, tr') => k a tr'
    | (Raise e, tr') => (Raise e, tr')
    end.

Definition io_lift {A : Type} (r : res A) : io A := fun tr => (r, tr).

(** [try: body except Exception as e: handler(e)].  Every [exn] is an
    [Exception], so the handler takes whatever the body raises; the
    cancellation of a call and the exits of the interpreter, which are not
    [Exception]s, are not part of this model. *)
Definition try_except {A : Type} (body : io A) (handler : exn -> io A) : io A :=
  fun tr =>
    match body tr with
    | (Ok a, tr') => (Ok a, tr')
    | (Raise e, tr') => handler e tr'
    end.

Declare Scope io_scope.
Delimit Scope io_scope with io.
Notation "x <- m ;; k" := (io_bind m (fun x => k))
  (at level 61, m at next level, right associativity) : io_scope.

(** [async with httpx.AsyncClient(...) as client: response = await
    client.get(url, params=params); response.raise_for_status(); return
    response.json()] *)
Definition http_get (w : world) (u : string) (ps : list (string * json))
  : io json :=
  fun tr =>
    let rq := mk_request u ps in (upstream w rq, tr ++ [rq])%list.

(** [os.getenv(name, default)] *)
Definition os_getenv (env : string -> option string) (name default : string)
  : string :=
  match env name with
  | Some v => v
  | None => default
  end.

(** [d[k] = v] *)
Fixpoint dict_set (d : list (string * json)) (k : string) (v : json)
  : list (string * json) :=
  match d with
  | [] => [(k, v)]
  | (k', v') :: d' =>
      if String.eqb k k' then (k, v) :: d' else (k', v') :: dict_set d' k v
  end.

(** [lines.append(x)] *)
Definition append (lines : list string) (x : string) : list string :=
  (lines ++ [x])%list.

(** A [TextContent] block of the tool-calling protocol. *)
Record TextContent : Type := mk_TextContent {
  type : string;
  text : string
}.

(** A [Tool] descriptor of the tool-calling protocol; the schema is the
    dict the code writes. *)
Record Tool : Type := mk_Tool {
  name : string;
  description : string;
  inputSchema : json
}.

(** ** The server *)

Definition SMITHSONIAN_API_BASE : string :=
  "https://api.si.edu/openaccess/api/v1.0".

(** Line 27: module constant, evaluated once, at import. *)
Definition DEFAULT_API_KEY (w : world) : string :=
  os_getenv (import_environ w) "SMITHSONIAN_API_KEY" "".

(** Lines 33-41: get the API key from the environment variable. *)
Definition get_api_key (w : world) : res string :=
  let api_key := os_getenv (environ w) "SMITHSONIAN_API_KEY" (DEFAULT_API_KEY w) in
  if negb (truthy (JStr api_key)) then
    Raise (ValueError
             ("SMITHSONIAN_API_KEY environment variable is required. "
                ++ "Get your free API key at https://api.data.gov/signup/"))
  else Ok api_key.

(** Lines 250-328: the three tools. *)
Definition list_tools : list Tool :=
  [mk_Tool "search_collection"
     ("Search the Smithsonian Institution's collections. "
        ++ "Search across millions of items including artifacts, artworks, specimens, and more. "
        ++ "Returns a list of matching items with basic information.")
     (JDict
        [("type", JStr "object");
         ("properties",
          JDict
            [("query",
              JDict [("type", JStr "string");
                     ("description",
                      JStr "Search query (supports keywords, phrases in quotes, AND/OR operators)")]);
             ("rows",
              JDict [("type", JStr "number");
                     ("description",
                      JStr "Number of results to return (default 10, max 1000)");
                     ("default", JInt 10)]);
             ("start",
              JDict [("type", JStr "number");
                     ("description",
                      JStr "Starting offset for pagination (default 0)");
                     ("default", JInt 0)]);
             ("online_media_only",
              JDict [("type", JStr "boolean");
                     ("description",
                      JStr "Only return items that have online media/images available");
                     ("default", JBool false)])]);
         ("required", JList [JStr "query"])]);
   mk_Tool "get_item"
     ("Get detailed information about a specific Smithsonian collection item. "
        ++ "Provides comprehensive metadata including descriptions, dates, creators, "
        ++ "physical details, and links to online media if available.")
     (JDict
        [("type", JStr "object");
         ("properties",
          JDict
            [("item_id",
              JDict [("type", JStr "string");
                     ("description",
                      JStr "The Smithsonian item ID (obtained from search results)")])]);
         ("required", JList [JStr "item_id"])]);
   mk_Tool "get_category_terms"
     ("Get available terms/values for a specific category or facet. "
        ++ "Useful for discovering valid filter values. "
        ++ "Categories include: online_media_type, data_source, topic, place, and more.")
     (JDict
        [("type", JStr "object");
         ("properties",
          JDict
            [("category",
              JDict [("type", JStr "string");
                     ("description",
                      JStr "Category name (e.g., 'online_media_type', 'data_source', 'topic', 'place')")]);
             ("starts_with",
              JDict [("type", JStr "string");
                     ("description",
                      JStr "Optional: filter terms that start with this string");
                     ("default", JStr "")])]);
         ("required", JList [JStr "category"])])].

Section Server.
Context {R : PyRepr}.

(** Lines 44-80: search the collections. *)
Definition search_smithsonian (w : world) (query rows start online_media : json)
  : io json :=
  (api_key <- io_lift (get_api_key w) ;;
   rows_sent <- io_lift (py_min_1000 rows) ;;
   let params := [("api_key", JStr api_key);
                  ("q", query);
                  ("rows", rows_sent);
                  ("start", start)] in
   let params :=
     if truthy online_media
     then dict_set params "online_media_type" (JStr "Images")
     else params in
   http_get w (SMITHSONIAN_API_BASE ++ "/search") params)%io.

(** Lines 83-103: the details of one item. *)
Definition get_item_details (w : world) (item_id : json) : io json :=
  (api_key <- io_lift (get_api_key w) ;;
   let params := [("api_key", JStr api_key)] in
   http_get w (SMITHSONIAN_API_BASE ++ "/content/" ++ py_str item_id) params)%io.

(** Lines 106-133: the terms of a category. *)
Definition get_category_terms (w : world) (category starts_with : json)
  : io json :=
  (api_key <- io_lift (get_api_key w) ;;
   let params := [("api_key", JStr api_key); ("category", category)] in
   let params :=
     if truthy starts_with
     then dict_set params "starts_with" starts_with
     else params in
   http_get w (SMITHSONIAN_API_BASE ++ "/terms/" ++ py_str category) params)%io.

(** Lines 148-175: the body of the loop over the rows of a search
    response. *)
Definition search_row (item : json) (result_lines : list string)
  : res (list string) :=
  (title <- py_get item "title" (JStr "Untitled") ;;
   item_id <- py_get item "id" (JStr "Unknown ID") ;;
   unit_code <- py_get item "unitCode" (JStr "") ;;
   let result_lines := append result_lines ("• " ++ py_str title) in
   let result_lines := append result_lines ("  ID: " ++ py_str item_id) in
   let result_lines :=
     if truthy unit_code
     then append result_lines ("  Unit: " ++ py_str unit_code)
     else result_lines in
   content <- py_get item "content" (JDict []) ;;
   result_lines <-
     (if isinstance_dict content then
        desc <- py_get content "descriptiveNonRepeating" (JDict []) ;;
        if isinstance_dict desc then
          record_link <- py_get desc "record_link" JNull ;;
          Ok (if truthy record_link
              then append result_lines ("  Link: " ++ py_str record_link)
              else result_lines)
        else Ok result_lines
      else Ok result_lines) ;;
   content' <- py_get item "content" (JDict []) ;;
   desc' <- py_get content' "descriptiveNonRepeating" (JDict []) ;;
   online_media <- py_get desc' "online_media" (JDict []) ;;
   result_lines <-
     (if truthy online_media && isinstance_dict online_media then
        media_count <- py_get online_media "mediaCount" (JInt 0) ;;
        positive <- py_gt_zero media_count ;;
        Ok (if (positive : bool)
            then append result_lines
                   ("  Online Media: " ++ py_str media_count ++ " items available")
            else result_lines)
      else Ok result_lines) ;;
   Ok (append result_lines ""))%res.

(** Lines 136-177. *)
Definition format_search_results (data : json) : res string :=
  (response <- py_get data "response" (JDict []) ;;
   rows_returned <- py_get response "rowCount" (JInt 0) ;;
   total_rows <- py_get response "rowCount" (JInt 0) ;;
   let result_lines :=
     ["Found " ++ py_str total_rows ++ " results";
      "Showing " ++ py_str rows_returned ++ " items:";
      ""] in
   rows <- py_get response "rows" (JList []) ;;
   items <- py_iter rows ;;
   result_lines <- for_each items search_row result_lines ;;
   Ok (String.concat LF result_lines))%res.

(** Lines 223-227: the body of the loop over the first media entries of
    an item. *)
Definition media_entry (media : json) (result_lines : list string)
  : res (list string) :=
  (if isinstance_dict media then
     media_type <- py_get media "type" (JStr "Unknown") ;;
     media_url <- py_get media "content" (JStr "") ;;
     Ok (append result_lines
           ("  - " ++ py_str media_type ++ ": " ++ py_str media_url))
   else Ok result_lines)%res.

(** Lines 238-245: the body of the loop over the first entries of a
    free-text field. *)
Definition freetext_entry (item : json) (result_lines : list string)
  : res (list string) :=
  (if isinstance_dict item then
     label <- py_get item "label" (JStr "") ;;
     content_text <- py_get item "content" (JStr "") ;;
     Ok (if truthy label
         then append result_lines
                ("    " ++ py_str label ++ ": " ++ py_str content_text)
         else append result_lines ("    " ++ py_str content_text))
   else Ok result_lines)%res.

(** Lines 235-245: the body of the loop over [freetext.items()]. *)
Definition freetext_field (kv : string * json) (result_lines : list string)
  : res (list string) :=
  (let (key, values) := kv in
   if isinstance_list values && truthy values then
     let result_lines := append result_lines ("  " ++ key ++ ":") in
     first <- py_slice_to 3 values ;;
     items <- py_iter first ;;
     for_each items freetext_entry result_lines
   else Ok result_lines)%res.

(** Lines 180-247. *)
Definition format_item_details (data : json) : res string :=
  (response <- py_get data "response" (JDict []) ;;
   let result_lines := ["Item Details:"; ""] in
   title <- py_get response "title" (JStr "Untitled") ;;
   item_id <- py_get response "id" (JStr "Unknown") ;;
   unit_code <- py_get response "unitCode" (JStr "") ;;
   let result_lines := append result_lines ("Title: " ++ py_str title) in
   let result_lines := append result_lines ("ID: " ++ py_str item_id) in
   let result_lines :=
     if truthy unit_code
     then append result_lines ("Unit: " ++ py_str unit_code)
     else result_lines in
   let result_lines := append result_lines "" in
   content <- py_get response "content" (JDict []) ;;
   result_lines <-
     (if isinstance_dict content then
        desc <- py_get content "descriptiveNonRepeating" (JDict []) ;;
        result_lines <-
          (if isinstance_dict desc then
             record_link <- py_get desc "record_link" JNull ;;
             let result_lines :=
               if truthy record_link
               then append result_lines ("Record Link: " ++ py_str record_link)
               else result_lines in
             data_source <- py_get desc "data_source" JNull ;;
             let result_lines :=
               if truthy data_source
               then append result_lines ("Data Source: " ++ py_str data_source)
               else result_lines in
             online_media <- py_get desc "online_media" (JDict []) ;;
             if truthy online_media && isinstance_dict online_media then
               let result_lines := append result_lines "" in
               let result_lines := append result_lines "Online Media:" in
               media_count <- py_get online_media "mediaCount" (JInt 0) ;;
               let result_lines :=
                 append result_lines ("  Total Items: " ++ py_str media_count) in
               media <- py_get online_media "media" (JList []) ;;
               first <- py_slice_to 5 media ;;
               entries <- py_iter first ;;
               for_each entries media_entry result_lines
             else Ok result_lines
           else Ok result_lines) ;;
        freetext <- py_get content "freetext" (JDict []) ;;
        match freetext with
        | JDict fields =>
            let result_lines := append result_lines "" in
            let result_lines := append result_lines "Additional Information:" in
            for_each fields freetext_field result_lines
        | _ => Ok result_lines
        end
      else Ok result_lines) ;;
   Ok (String.concat LF result_lines))%res.

(** Lines 373-381: the formatting of a terms response, which [call_tool]
    does in place (the spec's formatCategoryTerms). *)
Definition format_category_terms (category data : json) : res string :=
  (response <- py_get data "response" (JDict []) ;;
   terms <- py_get response "terms" (JList []) ;;
   let result_lines :=
     ["Available terms for '" ++ py_str category ++ "':"; ""] in
   items <- py_iter terms ;;
   result_lines <-
     for_each items
       (fun term result_lines => Ok (append result_lines ("• " ++ py_str term)))
       result_lines ;;
   Ok (String.concat LF result_lines))%res.

Definition text_block (s : string) : list TextContent :=
  [mk_TextContent "text" s].

(** Lines 331-388: handle a tool call. *)
Definition call_tool (w : world) (name : string) (arguments : json)
  : io (list TextContent) :=
  try_except
    (if String.eqb name "search_collection" then
       query <- io_lift (py_get arguments "query" JNull) ;;
       rows <- io_lift (py_get arguments "rows" (JInt 10)) ;;
       start <- io_lift (py_get arguments "start" (JInt 0)) ;;
       online_media_only <-
         io_lift (py_get arguments "online_media_only" (JBool false)) ;;
       if negb (truthy query) then
         io_ret (text_block "Error: query parameter is required")
       else
         data <- search_smithsonian w query rows start online_media_only ;;
         formatted_result <- io_lift (format_search_results data) ;;
         io_ret (text_block formatted_result)
     else if String.eqb name "get_item" then
       item_id <- io_lift (py_get arguments "item_id" JNull) ;;
       if negb (truthy item_id) then
         io_ret (text_block "Error: item_id parameter is required")
       else
         data <- get_item_details w item_id ;;
         formatted_result <- io_lift (format_item_details data) ;;
         io_ret (text_block formatted_result)
     else if String.eqb name "get_category_terms" then
       category <- io_lift (py_get arguments "category" JNull) ;;
       starts_with <- io_lift (py_get arguments "starts_with" (JStr "")) ;;
       if negb (truthy category) then
         io_ret (text_block "Error: category parameter is required")
       else
         data <- get_category_terms w category starts_with ;;
         result_text <- io_lift (format_category_terms category data) ;;
         io_ret (text_block result_text)
     else
       io_ret (text_block ("Error: Unknown tool '" ++ name ++ "'")))%io
    (fun e => io_ret (text_block ("Error: " ++ exn_str e))).

(** ** Reading a response, for the statements below *)

(** The value [o.get(k, default)] returns when [o] is an object. *)
Definition field (o : json) (k : string) (default : json) : json :=
  match o with
  | JDict d =>
      match dict_lookup k d with
      | Some v => v
      | None => default
      end
  | _ => default
  end.

(** The parameters a tool's schema requires. *)
Definition required_parameters (tool : Tool) : list string :=
  flat_map (fun p => match p with JStr s => [s] | _ => [] end)
    match inputSchema tool with
    | JDict schema =>
        match dict_lookup "required" schema with
        | Some (JList l) => l
        | _ => []
        end
    | _ => []
    end.

(** The argument map without the key [k]. *)
Definition dict_remove (k : string) (d : list (string * json))
  : list (string * json) :=
  filter (fun kv => negb (String.eqb k (fst kv))) d.

(** The error the credential resolver raises. *)
Definition missing_credential : exn :=
  ValueError
    "SMITHSONIAN_API_KEY environment variable is required. Get your free API key at https://api.data.gov/signup/".

(** The one request the search adapter sends. *)
Definition search_request (api_key query : string) (rows start : Z)
    (online_media : bool) : request :=
  mk_request "https://api.si.edu/openaccess/api/v1.0/search"
    ([("api_key", JStr api_key);
      ("q", JStr query);
      ("rows", JInt (Z.min rows 1000));
      ("start", JInt start)]
       ++ (if online_media then [("online_media_type", JStr "Images")] else []))%list.

(** *** What the formatters print, said over the document *)

Definition list_of (v : json) : list json :=
  match v with
  | JList l => l
  | _ => []
  end.

(** One media entry: its type and its URL. *)
Definition media_line (media : json) : string :=
  "  - " ++ py_str (field media "type" (JStr "Unknown"))
         ++ ": " ++ py_str (field media "content" (JStr "")).

(** The media lines of an item: one for each object among the first five
    entries. *)
Definition media_lines (entries : list json) : list string :=
  map media_line (filter isinstance_dict (firstn 5 entries)).

Definition online_media_block (online_media : json) : list string :=
  match online_media with
  | JDict (_ :: _) =>
      ""
        :: "Online Media:"
        :: ("  Total Items: " ++ py_str (field online_media "mediaCount" (JInt 0)))
        :: media_lines (list_of (field online_media "media" (JList [])))
  | _ => []
  end.

(** One free-text entry: "label: content", or the bare content when the
    entry has no label. *)
Definition freetext_entry_line (item : json) : string :=
  let label := field item "label" (JStr "") in
  let content_text := field item "content" (JStr "") in
  if truthy label
  then "    " ++ py_str label ++ ": " ++ py_str content_text
  else "    " ++ py_str content_text.

(** The entry lines of a free-text field: one for each object among the
    first three entries. *)
Definition freetext_entries (values : list json) : list string :=
  map freetext_entry_line (filter isinstance_dict (firstn 3 values)).

Definition freetext_field_lines (kv : string * json) : list string :=
  match snd kv with
  | JList ((_ :: _) as values) =>
      ("  " ++ fst kv ++ ":") :: freetext_entries values
  | _ => []
  end.

(** The free-text section. *)
Definition freetext_block (fields : list (string * json)) : list string :=
  "" :: "Additional Information:" :: flat_map freetext_field_lines fields.

Definition item_header (response : json) : list string :=
  ["Item Details:";
   "";
   "Title: " ++ py_str (field response "title" (JStr "Untitled"));
   "ID: " ++ py_str (field response "id" (JStr "Unknown"))]
    ++ (let unit_code := field response "unitCode" (JStr "") in
        if truthy unit_code then ["Unit: " ++ py_str unit_code] else [])
    ++ [""].

Definition item_links (desc : json) : list string :=
  (let record_link := field desc "record_link" JNull in
   if truthy record_link then ["Record Link: " ++ py_str record_link] else [])
    ++ (let data_source := field desc "data_source" JNull in
        if truthy data_source then ["Data Source: " ++ py_str data_source] else []).

Definition item_descriptive (desc : json) : list string :=
  match desc with
  | JDict _ =>
      item_links desc ++ online_media_block (field desc "online_media" (JDict []))
  | _ => []
  end.

Definition item_freetext (content : json) : list string :=
  match field content "freetext" (JDict []) with
  | JDict fields => freetext_block fields
  | _ => []
  end.

(** All the lines of an item, for a response on which the formatter
    returns. *)
Definition item_lines (response : json) : list string :=
  item_header response
    ++ match field response "content" (JDict []) with
       | JDict c =>
           item_descriptive (field (JDict c) "descriptiveNonRepeating" (JDict []))
             ++ item_freetext (JDict c)
       | _ => []
       end.

Definition search_header (response : json) : list string :=
  let count := py_str (field response "rowCount" (JInt 0)) in
  ["Found " ++ count ++ " results"; "Showing " ++ count ++ " items:"; ""].

(** The lines of one search result. *)
Definition search_row_lines (item : json) : list string :=
  let desc := field (field item "content" (JDict []))
                "descriptiveNonRepeating" (JDict []) in
  ["• " ++ py_str (field item "title" (JStr "Untitled"));
   "  ID: " ++ py_str (field item "id" (JStr "Unknown ID"))]
    ++ (let unit_code := field item "unitCode" (JStr "") in
        if truthy unit_code then ["  Unit: " ++ py_str unit_code] else [])
    ++ (let record_link := field desc "record_link" JNull in
        if truthy record_link then ["  Link: " ++ py_str record_link] else [])
    ++ (match field desc "online_media" (JDict []) with
        | JDict (_ :: _) as online_media =>
            let media_count := field online_media "mediaCount" (JInt 0) in
            match py_gt_zero media_count with
            | Ok true =>
                ["  Online Media: " ++ py_str media_count ++ " items available"]
            | _ => []
            end
        | _ => []
        end)
    ++ [""].

(** *** Documents of the expected shape

    A field may be missing; when it is there it has the kind the code
    reads it as. *)

Definition absent_or (ok : json -> bool) (d : list (string * json))
    (k : string) : bool :=
  match dict_lookup k d with
  | Some v => ok v
  | None => true
  end.

Definition is_number (v : json) : bool :=
  match v with
  | JInt _ | JFloat _ | JBool _ => true
  | _ => false
  end.

(** [online_media], when it is a non-empty object, counts its media with
    a number ([mediaCount]). *)
Definition media_counted (online_media : json) : bool :=
  match online_media with
  | JDict ((_ :: _) as o) => absent_or is_number o "mediaCount"
  | _ => true
  end.

(** A search row: an object whose [content] and
    [descriptiveNonRepeating] are objects. *)
Definition search_row_ok (item : json) : bool :=
  match item with
  | JDict i =>
      absent_or
        (fun content =>
           match content with
           | JDict c =>
               absent_or
                 (fun desc =>
                    match desc with
                    | JDict ds => absent_or media_counted ds "online_media"
                    | _ => false
                    end)
                 c "descriptiveNonRepeating"
           | _ => false
           end)
        i "content"
  | _ => false
  end.

Definition search_response_ok (data : json) : bool :=
  match data with
  | JDict d =>
      absent_or
        (fun response =>
           match response with
           | JDict r =>
               absent_or
                 (fun rows =>
                    match rows with
                    | JList l => forallb search_row_ok l
                    | _ => false
                    end)
                 r "rows"
           | _ => false
           end)
        d "response"
  | _ => false
  end.

(** [online_media], when it is a non-empty object, lists its media in a
    list ([media]). *)
Definition media_listed (online_media : json) : bool :=
  match online_media with
  | JDict ((_ :: _) as o) => absent_or isinstance_list o "media"
  | _ => true
  end.

(** The content of an item: of any kind; when it is an object holding an
    object [descriptiveNonRepeating], the media under it are listed. *)
Definition item_content_ok (content : json) : bool :=
  match content with
  | JDict c =>
      absent_or
        (fun desc =>
           match desc with
           | JDict ds => absent_or media_listed ds "online_media"
           | _ => true
           end)
        c "descriptiveNonRepeating"
  | _ => true
  end.

Definition item_response_ok (data : json) : bool :=
  match data with
  | JDict d =>
      absent_or
        (fun response =>
           match response with
           | JDict r => absent_or item_content_ok r "content"
           | _ => false
           end)
        d "response"
  | _ => false
  end.

Definition terms_response_ok (data : json) : bool :=
  match data with
  | JDict d =>
      absent_or
        (fun response =>
           match response with
           | JDict r => absent_or isinstance_list r "terms"
           | _ => false
           end)
        d "response"
  | _ => false
  end.

(** *** One call of the dispatcher, said over its arguments *)

(** What the dispatcher answers once an adapter has run: the formatter's
    text on the decoded body, or the text of whatever was raised, by the
    adapter or by the formatter; the requests are those of the adapter. *)
Definition answer (format : json -> res string)
    (outcome : res json * list request) : res (list TextContent) * list request :=
  match outcome with
  | (Ok data, tr) =>
      match format data with
      | Ok formatted => (Ok [mk_TextContent "text" formatted], tr)
      | Raise e => (Ok [mk_TextContent "text" ("Error: " ++ exn_str e)], tr)
      end
  | (Raise e, tr) => (Ok [mk_TextContent "text" ("Error: " ++ exn_str e)], tr)
  end.

(** The default a tool's schema declares for a parameter. *)
Definition schema_default (tool : Tool) (param : string) : option json :=
  match field (field (inputSchema tool) "properties" JNull) param JNull with
  | JDict p => dict_lookup "default" p
  | _ => None
  end.

(** A path segment that a URL carries as it is: not empty, and made of
    ASCII letters, digits, [-] and [_] only, so that it holds no
    separator, no dot segment, no space and no control character.  The
    item and the terms adapters put their argument into the path of the
    URL; for such an argument the request goes to the URL they build. *)
Definition plain_char (c : ascii) : bool :=
  let n := nat_of_ascii c in
  (((48 <=? n) && (n <=? 57)) || ((65 <=? n) && (n <=? 90))
   || ((97 <=? n) && (n <=? 122)) || (n =? 45) || (n =? 95))%nat.

Fixpoint plain_chars (s : string) : bool :=
  match s with
  | EmptyString => true
  | String c rest => plain_char c && plain_chars rest
  end.

Definition plain_segment (s : string) : bool :=
  match s with
  | EmptyString => false
  | String _ _ => plain_chars s
  end.

(** The request of the item adapter and of the terms adapter. *)
Definition item_request (api_key item_id : string) : request :=
  mk_request ("https://api.si.edu/openaccess/api/v1.0/content/" ++ item_id)
    [("api_key", JStr api_key)].

Definition terms_request (api_key category starts_with : string) : request :=
  mk_request ("https://api.si.edu/openaccess/api/v1.0/terms/" ++ category)
    ([("api_key", JStr api_key); ("category", JStr category)]
       ++ (if String.eqb starts_with "" then []
           else [("starts_with", JStr starts_with)]))%list.

(** The keys of the argument map the dispatcher reads. *)
Definition argument_keys : list string :=
  ["query"; "rows"; "start"; "online_media_only"; "item_id"; "category";
   "starts_with"].

(** What one call may add to the requests issued: nothing, or a single
    request, whose parameters carry the resolved key. *)
Definition sends_at_most_one (w : world) (before after : list request) : Prop :=
  exists sent,
    after = (before ++ sent)%list
    /\ (List.length sent <= 1)%nat
    /\ forall rq,
         In rq sent ->
         exists api_key,
           get_api_key w = Ok api_key
           /\ dict_lookup "api_key" (params rq) = Some (JStr api_key).

(** ** The dispatcher *)

Ltac run_io :=
  unfold call_tool, try_except, io_bind, io_lift, io_ret, text_block; cbn.

Lemma dict_lookup_remove (k : string) (d : list (string * json)) :
  dict_lookup k (dict_remove k d) = None.
Proof.
  induction d as [| [k' v] d IH]; cbn; [reflexivity |].
  destruct (String.eqb k k') eqn:E; cbn; [exact IH |].
  rewrite E. exact IH.
Qed.

(** C5.  A name that is none of the three declared tool names is
    answered, for every argument value, by the single text block
    [Error: Unknown tool '<name>'], and nothing is requested. *)
Theorem call_tool_unknown_tool (w : world) (called : string) (arguments : json)
    (tr : list request) :
  ~ In called (map name list_tools) ->
  call_tool w called arguments tr
  = (Ok [mk_TextContent "text" ("Error: Unknown tool '" ++ called ++ "'")], tr).
Proof.
  intros H. cbn in H.
  unfold call_tool, try_except.
  destruct (String.eqb_spec called "search_collection") as [-> | _];
    [exfalso; apply H; now left |].
  destruct (String.eqb_spec called "get_item") as [-> | _];
    [exfalso; apply H; right; now left |].
  destruct (String.eqb_spec called "get_category_terms") as [-> | _];
    [exfalso; apply H; right; right; now left |].
  reflexivity.
Qed.

(** The three validation branches: the answer when the required argument
    reads as falsy, which is also how an absent one reads ([None]). *)
Lemma search_collection_requires_query (w : world)
    (args : list (string * json)) (tr : list request) :
  truthy (field (JDict args) "query" JNull) = false ->
  call_tool w "search_collection" (JDict args) tr
  = (Ok [mk_TextContent "text" "Error: query parameter is required"], tr).
Proof.
  unfold field. intros H. run_io.
  destruct (dict_lookup "query" args), (dict_lookup "rows" args),
    (dict_lookup "start" args), (dict_lookup "online_media_only" args);
    cbn; rewrite ?H; reflexivity.
Qed.

Lemma get_item_requires_item_id (w : world)
    (args : list (string * json)) (tr : list request) :
  truthy (field (JDict args) "item_id" JNull) = false ->
  call_tool w "get_item" (JDict args) tr
  = (Ok [mk_TextContent "text" "Error: item_id parameter is required"], tr).
Proof.
  unfold field. intros H. run_io.
  destruct (dict_lookup "item_id" args); cbn; rewrite ?H; reflexivity.
Qed.

Lemma get_category_terms_requires_category (w : world)
    (args : list (string * json)) (tr : list request) :
  truthy (field (JDict args) "category" JNull) = false ->
  call_tool w "get_category_terms" (JDict args) tr
  = (Ok [mk_TextContent "text" "Error: category parameter is required"], tr).
Proof.
  unfold field. intros H. run_io.
  destruct (dict_lookup "category" args), (dict_lookup "starts_with" args);
    cbn; rewrite ?H; reflexivity.
Qed.

(** What the validation branch of a tool answers for a parameter it
    requires. *)
Lemma call_tool_requires (w : world) (args : list (string * json))
    (tr : list request) (tool : Tool) (param : string) :
  In tool list_tools ->
  In param (required_parameters tool) ->
  truthy (field (JDict args) param JNull) = false ->
  call_tool w (name tool) (JDict args) tr
  = (Ok [mk_TextContent "text" ("Error: " ++ param ++ " parameter is required")],
     tr).
Proof.
  intros Htool Hreq Hfalsy.
  destruct Htool as [<- | [<- | [<- | []]]];
    destruct Hreq as [<- | []].
  - now apply search_collection_requires_query.
  - now apply get_item_requires_item_id.
  - now apply get_category_terms_requires_category.
Qed.

(** C4.  For every declared tool and every parameter its schema
    requires ([query] for search_collection, [item_id] for get_item,
    [category] for get_category_terms): when the parameter is absent from
    the argument map, [call_tool] returns the single text block that names
    it; it does not raise and the list of issued requests is unchanged.
    In particular the empty map sent to search_collection is answered by
    "Error: query parameter is required". *)
Theorem call_tool_missing_argument (w : world) (args : list (string * json))
    (tr : list request) :
  (forall tool param,
      In tool list_tools ->
      In param (required_parameters tool) ->
      dict_lookup param args = None ->
      call_tool w (name tool) (JDict args) tr
      = (Ok [mk_TextContent "text" ("Error: " ++ param ++ " parameter is required")],
         tr))
  /\ map (fun tool => (name tool, required_parameters tool)) list_tools
     = [("search_collection", ["query"]);
        ("get_item", ["item_id"]);
        ("get_category_terms", ["category"])]
  /\ call_tool w "search_collection" (JDict []) tr
     = (Ok [mk_TextContent "text" "Error: query parameter is required"], tr).
Proof.
  split; [| split; [reflexivity |]].
  - intros tool param Htool Hreq Habsent.
    apply call_tool_requires; [assumption | assumption |].
    cbn. now rewrite Habsent.
  - now apply search_collection_requires_query.
Qed.

(** C10.  A required argument that is present but falsy (an empty string,
    zero, false, null, an empty list or object) is answered as an absent
    one: the same "parameter is required" block, no request issued, and
    the same outcome as for the argument map without that key. *)
Theorem call_tool_falsy_argument (w : world) (args : list (string * json))
    (v : json) (tr : list request) :
  truthy v = false ->
  forall tool param,
    In tool list_tools ->
    In param (required_parameters tool) ->
    dict_lookup param args = Some v ->
    call_tool w (name tool) (JDict args) tr
    = (Ok [mk_TextContent "text" ("Error: " ++ param ++ " parameter is required")],
       tr)
    /\ call_tool w (name tool) (JDict args) tr
       = call_tool w (name tool) (JDict (dict_remove param args)) tr.
Proof.
  intros Hv tool param Htool Hreq Hpresent.
  assert (Hfalsy : truthy (field (JDict args) param JNull) = false)
    by (cbn; now rewrite Hpresent).
  assert (Hgone : truthy (field (JDict (dict_remove param args)) param JNull)
                  = false)
    by (cbn; now rewrite dict_lookup_remove).
  split.
  - now apply call_tool_requires.
  - rewrite (call_tool_requires w args tr tool param) by assumption.
    now rewrite (call_tool_requires w (dict_remove param args) tr tool param).
Qed.

Ltac break_io :=
  repeat match goal with
         | |- context [match ?x with _ => _ end] =>
             lazymatch x with
             | context [match _ with _ => _ end] => fail
             | _ => destruct x eqn:?; cbn
             end
         end.

(** Each branch of the dispatcher's body hands back a single text block,
    and so does the handler around it. *)
Lemma call_tool_returns_one_block (w : world) (called : string)
    (arguments : json) (tr : list request) :
  exists s tr',
    call_tool w called arguments tr = (Ok [mk_TextContent "text" s], tr').
Proof.
  run_io. break_io; eexists; eexists; reflexivity.
Qed.

(** C2.  [call_tool] never raises: for every tool name and argument value
    it returns a single text block.  When the adapter it invokes raises
    [e] (no credential, an upstream failure, anything else), the block
    reads [Error: ] followed by [str(e)]. *)
Theorem call_tool_catches_errors (w : world) (called : string)
    (arguments : json) (tr : list request) :
  (exists s, fst (call_tool w called arguments tr) = Ok [mk_TextContent "text" s])
  /\ (forall args e tr',
        arguments = JDict args ->
        truthy (field arguments "query" JNull) = true ->
        search_smithsonian w
          (field arguments "query" JNull)
          (field arguments "rows" (JInt 10))
          (field arguments "start" (JInt 0))
          (field arguments "online_media_only" (JBool false)) tr
        = (Raise e, tr') ->
        call_tool w "search_collection" arguments tr
        = (Ok [mk_TextContent "text" ("Error: " ++ exn_str e)], tr'))
  /\ (forall args e tr',
        arguments = JDict args ->
        truthy (field arguments "item_id" JNull) = true ->
        get_item_details w (field arguments "item_id" JNull) tr = (Raise e, tr') ->
        call_tool w "get_item" arguments tr
        = (Ok [mk_TextContent "text" ("Error: " ++ exn_str e)], tr'))
  /\ (forall args e tr',
        arguments = JDict args ->
        truthy (field arguments "category" JNull) = true ->
        get_category_terms w
          (field arguments "category" JNull)
          (field arguments "starts_with" (JStr "")) tr
        = (Raise e, tr') ->
        call_tool w "get_category_terms" arguments tr
        = (Ok [mk_TextContent "text" ("Error: " ++ exn_str e)], tr')).
Proof.
  split; [| split; [| split]].
  - destruct (call_tool_returns_one_block w called arguments tr) as (s & tr' & H).
    exists s. now rewrite H.
  - intros args e tr' -> Hq Hraise. cbn in Hq, Hraise. run_io.
    destruct (dict_lookup "query" args), (dict_lookup "rows" args),
      (dict_lookup "start" args), (dict_lookup "online_media_only" args);
      cbn in *; try discriminate; rewrite Hq; cbn; rewrite Hraise; reflexivity.
  - intros args e tr' -> Hq Hraise. cbn in Hq, Hraise. run_io.
    destruct (dict_lookup "item_id" args);
      cbn in *; try discriminate; rewrite Hq; cbn; rewrite Hraise; reflexivity.
  - intros args e tr' -> Hq Hraise. cbn in Hq, Hraise. run_io.
    destruct (dict_lookup "category" args), (dict_lookup "starts_with" args);
      cbn in *; try discriminate; rewrite Hq; cbn; rewrite Hraise; reflexivity.
Qed.

(** ** The credential resolver and the search adapter *)

(** The resolver in any process: the variable's current value when it is
    set, else the value the module kept from import time. *)
Lemma get_api_key_reads (w : world) :
  get_api_key w
  = let api_key :=
      match environ w "SMITHSONIAN_API_KEY" with
      | Some v => v
      | None =>
          match import_environ w "SMITHSONIAN_API_KEY" with
          | Some v => v
          | None => ""
          end
      end in
    if String.eqb api_key "" then Raise missing_credential else Ok api_key.
Proof.
  unfold get_api_key, DEFAULT_API_KEY, os_getenv, truthy. cbn zeta.
  destruct (String.eqb _ ""); reflexivity.
Qed.

(** C6 (amended).  The credential resolver reads SMITHSONIAN_API_KEY as
    it is at the call and, when it is unset then, takes the value the
    module read at import.  It raises the error whose text tells where to
    get a key exactly when the value so resolved is empty: the variable is
    empty at the call, or unset at the call and unset or empty at import.
    Otherwise it returns the value: the one of the call when set, else the
    one of import.  In a process whose environment is still the one of
    import this is: the value when set and not empty, the error when unset
    or empty. *)
Theorem get_api_key_unset_or_empty (w : world) :
  let at_call := environ w "SMITHSONIAN_API_KEY" in
  let at_import := import_environ w "SMITHSONIAN_API_KEY" in
  get_api_key w
  = match at_call, at_import with
    | Some v, _ | None, Some v =>
        if String.eqb v "" then Raise missing_credential else Ok v
    | None, None => Raise missing_credential
    end
  /\ ((exists e, get_api_key w = Raise e)
      <-> at_call = Some ""
          \/ (at_call = None /\ (at_import = None \/ at_import = Some "")))
  /\ (forall (env : string -> option string) (up : request -> res json),
        get_api_key (mk_world env env up)
        = match env "SMITHSONIAN_API_KEY" with
          | Some v => if String.eqb v "" then Raise missing_credential else Ok v
          | None => Raise missing_credential
          end)
  /\ exn_type missing_credential = "ValueError"
  /\ String.index 0 "Get your free API key at https://api.data.gov/signup/"
       (exn_str missing_credential) = Some 54%nat.
Proof.
  cbn zeta. split; [| split; [| split; [| split; reflexivity]]].
  - rewrite get_api_key_reads.
    destruct (environ w "SMITHSONIAN_API_KEY") as [v |]; [reflexivity |].
    destruct (import_environ w "SMITHSONIAN_API_KEY") as [v |]; reflexivity.
  - rewrite get_api_key_reads.
    destruct (environ w "SMITHSONIAN_API_KEY") as [v |].
    + cbn zeta. destruct (String.eqb_spec v "") as [-> | Hv]; split.
      * intros _. now left.
      * intros _. eexists; reflexivity.
      * intros [e He]. discriminate He.
      * intros [[= Hs] | [Hn _]]; [now elim Hv | discriminate Hn].
    + destruct (import_environ w "SMITHSONIAN_API_KEY") as [v |]; cbn zeta.
      * destruct (String.eqb_spec v "") as [-> | Hv]; split.
        -- intros _. right. split; [reflexivity | now right].
        -- intros _. eexists; reflexivity.
        -- intros [e He]. discriminate He.
        -- intros [Hs | [_ [Hi | [= Hi]]]];
             [discriminate Hs | discriminate Hi | now elim Hv].
      * split.
        -- intros _. right. split; [reflexivity | now left].
        -- intros _. eexists; reflexivity.
  - intros env up. rewrite get_api_key_reads. cbn.
    destruct (env "SMITHSONIAN_API_KEY") as [v |]; reflexivity.
Qed.

Lemma py_min_1000_int (rows : Z) :
  py_min_1000 (JInt rows) = Ok (JInt (Z.min rows 1000)).
Proof.
  cbn. destruct (Z.ltb_spec 1000 rows).
  - now rewrite Z.min_r by lia.
  - now rewrite Z.min_l by lia.
Qed.

(** C3.  The search adapter, called with a query string, integers [rows]
    and [start] and a boolean flag, sends nothing when no credential
    resolves, and otherwise exactly one request whose parameters are
    [api_key], [q = query], [rows = min(rows, 1000)], [start], followed by
    [online_media_type = Images] exactly when the flag is true; with
    [rows = 5000] the request carries [rows = 1000]. *)
Theorem search_query_parameters (w : world) (query : string) (rows start : Z)
    (online_media : bool) (tr : list request) :
  search_smithsonian w (JStr query) (JInt rows) (JInt start)
    (JBool online_media) tr
  = match get_api_key w with
    | Ok api_key =>
        let rq := search_request api_key query rows start online_media in
        (upstream w rq, (tr ++ [rq])%list)
    | Raise e => (Raise e, tr)
    end
  /\ (forall api_key,
         dict_lookup "online_media_type"
           (params (search_request api_key query rows start online_media))
         = if online_media then Some (JStr "Images") else None)
  /\ (forall api_key,
         dict_lookup "rows"
           (params (search_request api_key query 5000 start online_media))
         = Some (JInt 1000)).
Proof.
  split; [| split].
  - unfold search_smithsonian, io_bind, io_lift.
    destruct (get_api_key w) as [api_key | e]; [| reflexivity].
    rewrite py_min_1000_int. destruct online_media; reflexivity.
  - intros api_key. destruct online_media; reflexivity.
  - intros api_key. destruct online_media; reflexivity.
Qed.

(** ** The formatters *)

(** A loop whose body only appends lines appends them all, in order. *)
Lemma for_each_appends {A : Type} (f : A -> list string)
    (body : A -> list string -> res (list string)) (xs : list A) :
  (forall x s, In x xs -> body x s = Ok (s ++ f x)%list) ->
  forall s, for_each xs body s = Ok (s ++ flat_map f xs)%list.
Proof.
  induction xs as [| x xs IH]; intros H s; cbn.
  - now rewrite app_nil_r.
  - rewrite H by now left.
    rewrite IH by (intros; apply H; now right).
    now rewrite app_assoc.
Qed.

Lemma flat_map_objects (g : json -> string) (l : list json) :
  flat_map (fun v => if isinstance_dict v then [g v] else []) l
  = map g (filter isinstance_dict l).
Proof.
  induction l as [| v l IH]; cbn; [reflexivity |].
  destruct (isinstance_dict v); cbn; now rewrite IH.
Qed.

(** On an object [get] never raises. *)
Lemma py_get_object (d : list (string * json)) (k : string) (default : json) :
  py_get (JDict d) k default = Ok (field (JDict d) k default).
Proof. cbn. now destruct (dict_lookup k d). Qed.

(** The loop bodies of the item formatter never raise: each appends at
    most one line. *)
Lemma media_entry_appends (media : json) (s : list string) :
  media_entry media s
  = Ok (s ++ (if isinstance_dict media then [media_line media] else []))%list.
Proof.
  destruct media; cbn [media_entry isinstance_dict];
    rewrite ?app_nil_r; try reflexivity.
  now rewrite !py_get_object.
Qed.

Lemma for_each_media (l : list json) (s : list string) :
  for_each l media_entry s
  = Ok (s ++ map media_line (filter isinstance_dict l))%list.
Proof.
  rewrite <- flat_map_objects.
  apply for_each_appends. intros; apply media_entry_appends.
Qed.

Lemma freetext_entry_appends (item : json) (s : list string) :
  freetext_entry item s
  = Ok (s ++ (if isinstance_dict item then [freetext_entry_line item] else []))%list.
Proof.
  destruct item; cbn [freetext_entry isinstance_dict];
    rewrite ?app_nil_r; try reflexivity.
  rewrite !py_get_object. cbn [res_bind]. unfold freetext_entry_line, append.
  now destruct (truthy _).
Qed.

Lemma for_each_freetext_entries (l : list json) (s : list string) :
  for_each l freetext_entry s
  = Ok (s ++ map freetext_entry_line (filter isinstance_dict l))%list.
Proof.
  rewrite <- flat_map_objects.
  apply for_each_appends. intros; apply freetext_entry_appends.
Qed.

Lemma freetext_field_appends (kv : string * json) (s : list string) :
  freetext_field kv s = Ok (s ++ freetext_field_lines kv)%list.
Proof.
  destruct kv as [key values]. unfold freetext_field, freetext_field_lines.
  destruct values as [| | | | | [| v l] |]; cbn - [firstn];
    rewrite ?app_nil_r; try reflexivity.
  rewrite for_each_freetext_entries. unfold append, freetext_entries.
  now rewrite <- app_assoc.
Qed.

Lemma for_each_freetext_fields (fields : list (string * json)) (s : list string) :
  for_each fields freetext_field s
  = Ok (s ++ flat_map freetext_field_lines fields)%list.
Proof.
  apply for_each_appends. intros; apply freetext_field_appends.
Qed.

(** A shape that holds of a field when it is present, and of its
    default, holds of what [get] reads. *)
Lemma absent_or_field (ok : json -> bool) (d : list (string * json))
    (k : string) (default : json) :
  absent_or ok d k = true ->
  ok default = true ->
  ok (field (JDict d) k default) = true.
Proof.
  unfold absent_or, field. now destruct (dict_lookup k d).
Qed.

(** Two lists of lines that differ by how the appends are nested. *)
Ltac lines_eq :=
  unfold append, freetext_block;
  repeat (rewrite <- ?app_assoc; cbn [app]);
  rewrite ?app_nil_r; reflexivity.

Lemma Ok_inj {A : Type} (a b : A) : Ok a = Ok b -> a = b.
Proof. now intros [= ->]. Qed.

Ltac take_out :=
  let H := fresh "H" in
  intros H; apply Ok_inj in H; rewrite <- H; clear H.

Lemma no_object_among_chars (l : list string) :
  filter isinstance_dict (map JStr l) = [].
Proof. induction l as [| s l IH]; [reflexivity | exact IH]. Qed.

(** The last part of the item formatter, from the lines [s] printed
    before it. *)
Lemma freetext_section_appends (c : list (string * json)) (s : list string) :
  (result_lines <-
     match field (JDict c) "freetext" (JDict []) with
     | JDict fields =>
         for_each fields freetext_field
           (append (append s "") "Additional Information:")
     | _ => Ok s
     end ;;
   Ok (String.concat LF result_lines))%res
  = Ok (String.concat LF (s ++ item_freetext (JDict c))%list).
Proof.
  unfold item_freetext.
  destruct (field (JDict c) "freetext" (JDict []));
    rewrite ?for_each_freetext_fields; cbn [res_bind]; lines_eq.
Qed.

(** The item formatter returns [item_lines] of the response on a document
    of the expected shape. *)
Lemma format_item_details_lines (data : json) :
  item_response_ok data = true ->
  format_item_details data
  = Ok (String.concat LF (item_lines (field data "response" (JDict [])))).
Proof.
  destruct data as [| | | | | | d]; try discriminate.
  intros H. apply absent_or_field with (default := JDict []) in H; [| reflexivity].
  unfold format_item_details. rewrite py_get_object. cbn [res_bind].
  destruct (field (JDict d) "response" (JDict [])) as [| | | | | | r];
    try discriminate.
  apply absent_or_field with (default := JDict []) in H; [| reflexivity].
  rewrite !py_get_object. cbn [res_bind]. unfold item_lines, item_header.
  destruct (field (JDict r) "content" (JDict [])) as [| | | | | | c];
    cbn [isinstance_dict res_bind];
    try (destruct (truthy (field (JDict r) "unitCode" (JStr ""))); lines_eq).
  apply absent_or_field with (default := JDict []) in H; [| reflexivity].
  rewrite !py_get_object. cbn [res_bind].
  destruct (field (JDict c) "descriptiveNonRepeating" (JDict []))
    as [| | | | | | ds]; cbn [isinstance_dict res_bind item_descriptive];
    rewrite ?freetext_section_appends;
    try (destruct (truthy (field (JDict r) "unitCode" (JStr ""))); lines_eq).
  rewrite !py_get_object. cbn [res_bind].
  apply absent_or_field with (default := JDict []) in H; [| reflexivity].
  unfold item_links.
  destruct (field (JDict ds) "online_media" (JDict []))
    as [| | | | | | [| x o]] eqn:Eom;
    cbn [truthy isinstance_dict andb]; rewrite ?Bool.andb_false_r;
    cbn [res_bind online_media_block].
  8: { rewrite !py_get_object. cbn [res_bind].
       apply absent_or_field with (default := JList []) in H; [| reflexivity].
       destruct (field (JDict (x :: o)) "media" (JList [])) as [| | | | | ml |];
         try discriminate.
       cbn [py_slice_to py_iter res_bind list_of]. rewrite for_each_media.
       cbn [res_bind]. rewrite freetext_section_appends. unfold media_lines.
       destruct (truthy (field (JDict r) "unitCode" (JStr ""))),
         (truthy (field (JDict ds) "record_link" JNull)),
         (truthy (field (JDict ds) "data_source" JNull)); lines_eq. }
  all: rewrite freetext_section_appends;
    destruct (truthy (field (JDict r) "unitCode" (JStr ""))),
      (truthy (field (JDict ds) "record_link" JNull)),
      (truthy (field (JDict ds) "data_source" JNull)); lines_eq.
Qed.

(** Whatever the item formatter returns, on any document, is [item_lines]
    of the response. *)
Lemma format_item_details_output (data : json) (out : string) :
  format_item_details data = Ok out ->
  out = String.concat LF (item_lines (field data "response" (JDict []))).
Proof.
  destruct data as [| | | | | | d]; try discriminate.
  unfold format_item_details. rewrite py_get_object. cbn [res_bind].
  destruct (field (JDict d) "response" (JDict [])) as [| | | | | | r];
    try discriminate.
  rewrite !py_get_object. cbn [res_bind]. unfold item_lines, item_header.
  destruct (field (JDict r) "content" (JDict [])) as [| | | | | | c];
    cbn [isinstance_dict res_bind];
    try (take_out;
         destruct (truthy (field (JDict r) "unitCode" (JStr ""))); lines_eq).
  rewrite !py_get_object. cbn [res_bind].
  destruct (field (JDict c) "descriptiveNonRepeating" (JDict []))
    as [| | | | | | ds]; cbn [isinstance_dict res_bind item_descriptive];
    rewrite ?freetext_section_appends;
    try (take_out;
         destruct (truthy (field (JDict r) "unitCode" (JStr ""))); lines_eq).
  rewrite !py_get_object. cbn [res_bind]. unfold item_links.
  destruct (field (JDict ds) "online_media" (JDict []))
    as [| | | | | | [| x o]] eqn:Eom;
    cbn [truthy isinstance_dict andb]; rewrite ?Bool.andb_false_r;
    cbn [res_bind online_media_block].
  8: { rewrite !py_get_object. cbn [res_bind].
       destruct (field (JDict (x :: o)) "media" (JList []))
         as [| | | | s | ml |]; try discriminate;
         cbn [py_slice_to py_iter res_bind list_of]; rewrite for_each_media;
         cbn [res_bind]; rewrite freetext_section_appends; unfold media_lines;
         rewrite ?no_object_among_chars; take_out;
         destruct (truthy (field (JDict r) "unitCode" (JStr ""))),
           (truthy (field (JDict ds) "record_link" JNull)),
           (truthy (field (JDict ds) "data_source" JNull)); lines_eq. }
  all: rewrite freetext_section_appends; take_out;
    destruct (truthy (field (JDict r) "unitCode" (JStr ""))),
      (truthy (field (JDict ds) "record_link" JNull)),
      (truthy (field (JDict ds) "data_source" JNull)); lines_eq.
Qed.

(** On a row of the expected shape the loop body of the search formatter
    returns, having appended the lines of the row. *)
Lemma search_row_appends (item : json) (s : list string) :
  search_row_ok item = true ->
  search_row item s = Ok (s ++ search_row_lines item)%list.
Proof.
  destruct item as [| | | | | | i]; try discriminate.
  intros H. apply absent_or_field with (default := JDict []) in H; [| reflexivity].
  unfold search_row, search_row_lines. rewrite !py_get_object. cbn [res_bind].
  destruct (field (JDict i) "content" (JDict [])) as [| | | | | | c];
    try discriminate.
  apply absent_or_field with (default := JDict []) in H; [| reflexivity].
  cbn [isinstance_dict]. rewrite !py_get_object. cbn [res_bind].
  destruct (field (JDict c) "descriptiveNonRepeating" (JDict []))
    as [| | | | | | ds]; try discriminate.
  apply absent_or_field with (default := JDict []) in H; [| reflexivity].
  cbn [isinstance_dict]. rewrite !py_get_object. cbn [res_bind].
  destruct (field (JDict ds) "online_media" (JDict []))
    as [| | | | | | [| x o]];
    cbn [truthy isinstance_dict andb]; rewrite ?Bool.andb_false_r;
    cbn [res_bind].
  8: { rewrite !py_get_object. cbn [res_bind].
       apply absent_or_field with (default := JInt 0) in H; [| reflexivity].
       destruct (field (JDict (x :: o)) "mediaCount" (JInt 0)) as [| b | n | y | | |];
         try discriminate; cbn [py_gt_zero res_bind].
       - destruct b,
           (truthy (field (JDict i) "unitCode" (JStr ""))),
           (truthy (field (JDict ds) "record_link" JNull)); lines_eq.
       - destruct (0 <? n)%Z,
           (truthy (field (JDict i) "unitCode" (JStr ""))),
           (truthy (field (JDict ds) "record_link" JNull)); lines_eq.
       - destruct (PrimFloat.ltb 0 y),
           (truthy (field (JDict i) "unitCode" (JStr ""))),
           (truthy (field (JDict ds) "record_link" JNull)); lines_eq. }
  all: destruct (truthy (field (JDict i) "unitCode" (JStr ""))),
      (truthy (field (JDict ds) "record_link" JNull)); lines_eq.
Qed.

Lemma format_search_results_lines (data : json) :
  search_response_ok data = true ->
  format_search_results data
  = Ok (String.concat LF
          (let response := field data "response" (JDict []) in
           search_header response
             ++ flat_map search_row_lines
                  (list_of (field response "rows" (JList []))))%list).
Proof.
  destruct data as [| | | | | | d]; try discriminate.
  intros H. apply absent_or_field with (default := JDict []) in H; [| reflexivity].
  unfold format_search_results. rewrite py_get_object. cbn [res_bind].
  destruct (field (JDict d) "response" (JDict [])) as [| | | | | | r];
    try discriminate.
  apply absent_or_field with (default := JList []) in H; [| reflexivity].
  rewrite !py_get_object. cbn [res_bind].
  destruct (field (JDict r) "rows" (JList [])) as [| | | | | l |];
    try discriminate.
  cbn [py_iter res_bind list_of].
  rewrite (for_each_appends search_row_lines).
  - reflexivity.
  - intros x s Hx. apply search_row_appends.
    rewrite forallb_forall in H. now apply H.
Qed.

Lemma flat_map_singleton {A : Type} (g : A -> string) (l : list A) :
  flat_map (fun x => [g x]) l = map g l.
Proof.
  induction l as [| x l IH]; cbn; [reflexivity | now rewrite IH].
Qed.

Lemma format_category_terms_lines (category data : json) :
  terms_response_ok data = true ->
  format_category_terms category data
  = Ok (String.concat LF
          (app ["Available terms for '" ++ py_str category ++ "':"; ""]
             (map (fun term => "• " ++ py_str term)
                (list_of (field (field data "response" (JDict []))
                            "terms" (JList [])))))).
Proof.
  destruct data as [| | | | | | d]; try discriminate.
  intros H. apply absent_or_field with (default := JDict []) in H; [| reflexivity].
  unfold format_category_terms. rewrite py_get_object. cbn [res_bind].
  destruct (field (JDict d) "response" (JDict [])) as [| | | | | | r];
    try discriminate.
  apply absent_or_field with (default := JList []) in H; [| reflexivity].
  rewrite !py_get_object. cbn [res_bind].
  destruct (field (JDict r) "terms" (JList [])) as [| | | | | l |];
    try discriminate.
  cbn [py_iter res_bind list_of].
  rewrite (for_each_appends (fun term => ["• " ++ py_str term])).
  - now rewrite flat_map_singleton.
  - reflexivity.
Qed.

(** Whenever it returns, the loop body of the search formatter has kept
    the lines it was given. *)
Lemma search_row_extends (item : json) (s s' : list string) :
  search_row item s = Ok s' -> exists rest, s' = (s ++ rest)%list.
Proof.
  unfold search_row, res_bind. intros H.
  repeat match type of H with
         | context [match ?x with _ => _ end] =>
             lazymatch x with
             | context [match _ with _ => _ end] => fail
             | _ => destruct x eqn:?; try discriminate
             end
         end.
  all: injection H as <-; unfold append;
    repeat (rewrite <- ?app_assoc; cbn [app]); eexists; reflexivity.
Qed.

Lemma for_each_search_rows_extends (items : list json) (s s' : list string) :
  for_each items search_row s = Ok s' -> exists rest, s' = (s ++ rest)%list.
Proof.
  revert s. induction items as [| item items IH]; intros s; cbn.
  - intros [= <-]. exists []. now rewrite app_nil_r.
  - destruct (search_row item s) as [s1 |] eqn:E; [| discriminate].
    intros H. apply search_row_extends in E as [r1 ->].
    apply IH in H as [r2 ->]. exists (r1 ++ r2)%list. now rewrite app_assoc.
Qed.

(** C9.  Whenever [format_search_results] returns, its first two lines
    carry one and the same number, the response's [rowCount] (0 when
    absent): "Found N results" and "Showing N items:".  The number of rows
    listed below them is not what is shown: a response with [rowCount]
    100 and a single row prints "Showing 100 items:" above one entry. *)
Theorem search_header_counts :
  (forall data out,
      format_search_results data = Ok out ->
      exists count rest,
        count = py_str (field (field data "response" (JDict []))
                          "rowCount" (JInt 0))
        /\ out = String.concat LF
                   (("Found " ++ count ++ " results")
                      :: ("Showing " ++ count ++ " items:")
                      :: "" :: rest))
  /\ format_search_results
       (JDict [("response",
                JDict [("rowCount", JInt 100);
                       ("rows", JList [JDict [("title", JStr "Apollo 11");
                                              ("id", JStr "nasm_A1")]])])])
     = Ok (String.concat LF
             ["Found 100 results";
              "Showing 100 items:";
              "";
              "• Apollo 11";
              "  ID: nasm_A1";
              ""]).
Proof.
  split; [| reflexivity].
  intros data out. unfold format_search_results.
  destruct data as [| | | | | | d]; try discriminate.
  rewrite py_get_object. cbn [res_bind].
  destruct (field (JDict d) "response" (JDict [])) as [| | | | | | r];
    try discriminate.
  rewrite !py_get_object. cbn [res_bind].
  destruct (py_iter _) as [items |]; [| discriminate]. cbn [res_bind].
  destruct (for_each items search_row _) as [lines |] eqn:E; [| discriminate].
  cbn [res_bind]. intros [= <-].
  apply for_each_search_rows_extends in E as [rest ->].
  eexists; exists rest. split; reflexivity.
Qed.

Lemma firstn_objects_bound (n : nat) (l : list json) :
  (List.length (filter isinstance_dict (firstn n l)) <= n)%nat.
Proof.
  etransitivity; [apply filter_length_le | apply firstn_le_length].
Qed.

Lemma filter_all {A : Type} (p : A -> bool) (l : list A) :
  forallb p l = true -> filter p l = l.
Proof.
  induction l as [| x l IH]; cbn; [reflexivity |].
  destruct (p x); cbn; [| discriminate]. intros H. now rewrite IH.
Qed.

(** C1 (amended).  Each formatter returns a string on every document of
    the expected shape, whichever fields are missing: [response] an
    object; for the search formatter [rows] a list of objects whose
    [content] and [descriptiveNonRepeating] are objects and whose
    [mediaCount], under a non-empty [online_media] object, is a number;
    for the item formatter [online_media.media] a list, with [content],
    [descriptiveNonRepeating], [online_media], [freetext] and the media and
    free-text entries of any kind; for the terms formatter [terms] a
    list. *)
Theorem formatters_return_on_expected_shape :
  (forall data,
      search_response_ok data = true ->
      exists s, format_search_results data = Ok s)
  /\ (forall data,
         item_response_ok data = true ->
         exists s, format_item_details data = Ok s)
  /\ (forall category data,
         terms_response_ok data = true ->
         exists s, format_category_terms category data = Ok s).
Proof.
  split; [| split].
  - intros data H. rewrite format_search_results_lines by assumption.
    eexists; reflexivity.
  - intros data H. rewrite format_item_details_lines by assumption.
    eexists; reflexivity.
  - intros category data H. rewrite format_category_terms_lines by assumption.
    eexists; reflexivity.
Qed.

(** C7 (amended).  For an item whose [online_media] is a non-empty
    object with [media] absent or a list, [format_item_details] returns,
    and its text holds, after the header and the links, the block
    "Online Media:" with the total count ([mediaCount], 0 when absent) and
    one line "  - type: URL" for each object among the first five media
    entries, then the free-text section.  So there are at most five media
    lines; a list of eight entries gives exactly five when its first five
    entries are objects. *)
Theorem item_media_lines (d r c ds om : list (string * json)) :
  dict_lookup "response" d = Some (JDict r) ->
  dict_lookup "content" r = Some (JDict c) ->
  dict_lookup "descriptiveNonRepeating" c = Some (JDict ds) ->
  dict_lookup "online_media" ds = Some (JDict om) ->
  om <> [] ->
  media_listed (JDict om) = true ->
  let media := list_of (field (JDict om) "media" (JList [])) in
  let shown := map media_line (filter isinstance_dict (firstn 5 media)) in
  format_item_details (JDict d)
  = Ok (String.concat LF
          (item_header (JDict r)
             ++ item_links (JDict ds)
             ++ [""; "Online Media:";
                 ("  Total Items: "
                    ++ py_str (field (JDict om) "mediaCount" (JInt 0)))%string]
             ++ shown
             ++ item_freetext (JDict c))%list)
  /\ (List.length shown <= 5)%nat
  /\ (List.length media = 8%nat ->
      forallb isinstance_dict (firstn 5 media) = true ->
      List.length shown = 5%nat).
Proof.
  intros Hr Hc Hds Hom Hne Hm media shown. split; [| split].
  - rewrite format_item_details_lines
      by (unfold item_response_ok, item_content_ok, absent_or;
          now rewrite Hr, Hc, Hds, Hom).
    unfold item_lines, item_descriptive, online_media_block, media_lines.
    cbn [field]. rewrite Hr. cbn [field]. rewrite Hc. cbn [field].
    rewrite Hds. cbn [field]. rewrite Hom.
    destruct om as [| x o]; [congruence |].
    subst shown media. repeat (rewrite <- ?app_assoc; cbn [app]). reflexivity.
  - subst shown. rewrite length_map. apply firstn_objects_bound.
  - intros Hlen Hall. subst shown.
    rewrite length_map, filter_all by assumption.
    rewrite length_firstn, Hlen. reflexivity.
Qed.

(** C8 (amended).  For an item whose content holds a [freetext] object
    and whose media, if any, are listed in a list, [format_item_details]
    returns, and its text ends with the free-text section: an empty line,
    "Additional Information:", and for each field whose value is a
    non-empty list a line "  key:" followed by one line for each object
    among its first three entries, "    label: content", or "    content"
    when the entry has no label. *)
Theorem item_freetext_section (d r c fields : list (string * json)) :
  dict_lookup "response" d = Some (JDict r) ->
  dict_lookup "content" r = Some (JDict c) ->
  dict_lookup "freetext" c = Some (JDict fields) ->
  item_content_ok (JDict c) = true ->
  format_item_details (JDict d)
  = Ok (String.concat LF
          (item_header (JDict r)
             ++ item_descriptive
                  (field (JDict c) "descriptiveNonRepeating" (JDict []))
             ++ "" :: "Additional Information:"
             :: flat_map freetext_field_lines fields)%list)
  /\ (forall key v values,
         freetext_field_lines (key, JList (v :: values))
         = ("  " ++ key ++ ":")
             :: map freetext_entry_line
                  (filter isinstance_dict (firstn 3 (v :: values)))
         /\ (List.length (filter isinstance_dict (firstn 3 (v :: values))) <= 3)%nat)
  /\ (forall item,
         freetext_entry_line item
         = let content_text := py_str (field item "content" (JStr "")) in
           let label := field item "label" (JStr "") in
           if truthy label
           then "    " ++ py_str label ++ ": " ++ content_text
           else "    " ++ content_text).
Proof.
  intros Hr Hc Hft Hok. split; [| split].
  - rewrite format_item_details_lines
      by (unfold item_response_ok, absent_or; now rewrite Hr, Hc).
    unfold item_lines, item_freetext. cbn [field].
    rewrite Hr. cbn [field]. rewrite Hc. cbn [field]. now rewrite Hft.
  - intros key v values. split; [reflexivity | apply firstn_objects_bound].
  - reflexivity.
Qed.

(** ** Further properties: the dispatcher end to end, the adapters it
    calls, and the edges of the formatters *)

(** The dispatcher past its validation, tool by tool. *)
Lemma call_tool_search_collection (w : world) (args : list (string * json))
    (tr : list request) :
  truthy (field (JDict args) "query" JNull) = true ->
  call_tool w "search_collection" (JDict args) tr
  = answer format_search_results
      (search_smithsonian w
         (field (JDict args) "query" JNull)
         (field (JDict args) "rows" (JInt 10))
         (field (JDict args) "start" (JInt 0))
         (field (JDict args) "online_media_only" (JBool false)) tr).
Proof.
  intros Hq. unfold call_tool, try_except, io_bind, io_lift, io_ret, text_block.
  rewrite String.eqb_refl, !py_get_object, Hq. cbn [negb].
  destruct (search_smithsonian _ _ _ _ _ tr) as [[data | e] tr']; cbn [answer];
    [| reflexivity].
  destruct (format_search_results data); reflexivity.
Qed.

Lemma call_tool_get_item (w : world) (args : list (string * json))
    (tr : list request) :
  truthy (field (JDict args) "item_id" JNull) = true ->
  call_tool w "get_item" (JDict args) tr
  = answer format_item_details
      (get_item_details w (field (JDict args) "item_id" JNull) tr).
Proof.
  intros Hq. unfold call_tool, try_except, io_bind, io_lift, io_ret, text_block.
  change (String.eqb "get_item" "search_collection") with false.
  rewrite String.eqb_refl, !py_get_object, Hq. cbn [negb].
  destruct (get_item_details _ _ tr) as [[data | e] tr']; cbn [answer];
    [| reflexivity].
  destruct (format_item_details data); reflexivity.
Qed.

Lemma call_tool_get_category_terms (w : world) (args : list (string * json))
    (tr : list request) :
  truthy (field (JDict args) "category" JNull) = true ->
  call_tool w "get_category_terms" (JDict args) tr
  = answer (format_category_terms (field (JDict args) "category" JNull))
      (get_category_terms w
         (field (JDict args) "category" JNull)
         (field (JDict args) "starts_with" (JStr "")) tr).
Proof.
  intros Hq. unfold call_tool, try_except, io_bind, io_lift, io_ret, text_block.
  change (String.eqb "get_category_terms" "search_collection") with false.
  change (String.eqb "get_category_terms" "get_item") with false.
  rewrite String.eqb_refl, !py_get_object, Hq. cbn [negb].
  destruct (get_category_terms _ _ _ tr) as [[data | e] tr']; cbn [answer];
    [| reflexivity].
  destruct (format_category_terms _ data); reflexivity.
Qed.

Lemma search_smithsonian_steps (w : world) (query rows start online_media : json)
    (tr : list request) :
  search_smithsonian w query rows start online_media tr
  = match get_api_key w with
    | Ok api_key =>
        match py_min_1000 rows with
        | Ok rows_sent =>
            let rq :=
              mk_request "https://api.si.edu/openaccess/api/v1.0/search"
                (let params := [("api_key", JStr api_key); ("q", query);
                                ("rows", rows_sent); ("start", start)] in
                 if truthy online_media
                 then (params ++ [("online_media_type", JStr "Images")])%list
                 else params) in
            (upstream w rq, (tr ++ [rq])%list)
        | Raise e => (Raise e, tr)
        end
    | Raise e => (Raise e, tr)
    end.
Proof.
  unfold search_smithsonian, io_bind, io_lift, http_get.
  destruct (get_api_key w); [| reflexivity].
  destruct (py_min_1000 rows); [| reflexivity].
  destruct (truthy online_media); reflexivity.
Qed.

Lemma get_category_terms_steps (w : world) (category starts_with : json)
    (tr : list request) :
  get_category_terms w category starts_with tr
  = match get_api_key w with
    | Ok api_key =>
        let rq :=
          mk_request
            ("https://api.si.edu/openaccess/api/v1.0/terms/" ++ py_str category)
            (let params := [("api_key", JStr api_key); ("category", category)] in
             if truthy starts_with
             then (params ++ [("starts_with", starts_with)])%list
             else params) in
        (upstream w rq, (tr ++ [rq])%list)
    | Raise e => (Raise e, tr)
    end.
Proof.
  unfold get_category_terms, io_bind, io_lift, http_get.
  destruct (get_api_key w); [| reflexivity].
  destruct (truthy starts_with); reflexivity.
Qed.

Lemma get_item_details_steps (w : world) (item_id : json) (tr : list request) :
  get_item_details w item_id tr
  = match get_api_key w with
    | Ok api_key =>
        let rq :=
          mk_request
            ("https://api.si.edu/openaccess/api/v1.0/content/" ++ py_str item_id)
            [("api_key", JStr api_key)] in
        (upstream w rq, (tr ++ [rq])%list)
    | Raise e => (Raise e, tr)
    end.
Proof.
  unfold get_item_details, io_bind, io_lift, http_get.
  destruct (get_api_key w); reflexivity.
Qed.

Lemma truthy_text (s : string) : s <> "" -> truthy (JStr s) = true.
Proof.
  intros H. cbn. apply String.eqb_neq in H. now rewrite H.
Qed.

(** X1.  A search through the dispatcher, with a non-empty query string
    and, where given, integer [rows] and [start] and a boolean flag:
    [rows] defaults to 10, [start] to 0, the flag to false; one request
    goes out, with [rows] capped at 1000; the answer is the formatted
    body, or an [Error: ...] block when upstream or the formatter
    raises. *)
Theorem search_collection_end_to_end (w : world) (args : list (string * json))
    (api_key query : string) (rows start : Z) (flag : bool)
    (tr : list request) :
  get_api_key w = Ok api_key ->
  dict_lookup "query" args = Some (JStr query) ->
  query <> "" ->
  field (JDict args) "rows" (JInt 10) = JInt rows ->
  field (JDict args) "start" (JInt 0) = JInt start ->
  field (JDict args) "online_media_only" (JBool false) = JBool flag ->
  call_tool w "search_collection" (JDict args) tr
  = let rq := search_request api_key query rows start flag in
    answer format_search_results (upstream w rq, (tr ++ [rq])%list).
Proof.
  intros Hkey Hq Hne Hrows Hstart Hflag.
  assert (Hquery : field (JDict args) "query" JNull = JStr query)
    by (cbn; now rewrite Hq).
  rewrite call_tool_search_collection
    by (rewrite Hquery; now apply truthy_text).
  rewrite Hquery, Hrows, Hstart, Hflag, search_smithsonian_steps, Hkey.
  rewrite py_min_1000_int. destruct flag; reflexivity.
Qed.

Lemma plain_segment_not_empty (s : string) :
  plain_segment s = true -> s <> "".
Proof. now destruct s. Qed.

(** X2.  An item lookup through the dispatcher, with an id that is a
    plain segment (letters, digits, [-], [_]): one request goes out, to
    [/content/<id>] with the key as its only parameter; the answer is the
    formatted body, or an [Error: ...] block when upstream or the
    formatter raises. *)
Theorem get_item_end_to_end (w : world) (args : list (string * json))
    (api_key item_id : string) (tr : list request) :
  get_api_key w = Ok api_key ->
  dict_lookup "item_id" args = Some (JStr item_id) ->
  plain_segment item_id = true ->
  call_tool w "get_item" (JDict args) tr
  = let rq := item_request api_key item_id in
    answer format_item_details (upstream w rq, (tr ++ [rq])%list).
Proof.
  intros Hkey Hid Hplain. apply plain_segment_not_empty in Hplain.
  assert (Hitem : field (JDict args) "item_id" JNull = JStr item_id)
    by (cbn; now rewrite Hid).
  rewrite call_tool_get_item by (rewrite Hitem; now apply truthy_text).
  now rewrite Hitem, get_item_details_steps, Hkey.
Qed.

(** X3.  A terms lookup through the dispatcher, with a category that is
    a plain segment (letters, digits, [-], [_]) and, where given, a prefix
    string: one request goes out, to [/terms/<category>] with the key and
    the category, and with [starts_with] only when the prefix is not empty
    ([starts_with] defaults to the empty string); the answer is the
    formatted body, or an [Error: ...] block when upstream or the
    formatter raises. *)
Theorem get_category_terms_end_to_end (w : world) (args : list (string * json))
    (api_key category starts_with : string) (tr : list request) :
  get_api_key w = Ok api_key ->
  dict_lookup "category" args = Some (JStr category) ->
  plain_segment category = true ->
  field (JDict args) "starts_with" (JStr "") = JStr starts_with ->
  call_tool w "get_category_terms" (JDict args) tr
  = let rq := terms_request api_key category starts_with in
    answer (format_category_terms (JStr category))
      (upstream w rq, (tr ++ [rq])%list).
Proof.
  intros Hkey Hc Hplain Hprefix. apply plain_segment_not_empty in Hplain.
  assert (Hcat : field (JDict args) "category" JNull = JStr category)
    by (cbn; now rewrite Hc).
  rewrite call_tool_get_category_terms by (rewrite Hcat; now apply truthy_text).
  rewrite Hcat, Hprefix, get_category_terms_steps, Hkey.
  unfold terms_request. cbn [truthy py_str].
  destruct (String.eqb starts_with ""); reflexivity.
Qed.

(** X4.  Without a credential no tool sends anything: for every declared
    tool called with its required argument, whatever the other arguments,
    the answer is the credential error as text and the list of requests is
    unchanged. *)
Theorem call_tool_without_credential (w : world) (args : list (string * json))
    (tool : Tool) (param : string) (e : exn) (tr : list request) :
  In tool list_tools ->
  In param (required_parameters tool) ->
  truthy (field (JDict args) param JNull) = true ->
  get_api_key w = Raise e ->
  call_tool w (name tool) (JDict args) tr
  = (Ok [mk_TextContent "text" ("Error: " ++ exn_str e)], tr).
Proof.
  intros Htool Hreq Hgiven Hkey.
  destruct Htool as [<- | [<- | [<- | []]]]; destruct Hreq as [<- | []];
    cbn [name].
  - rewrite call_tool_search_collection, search_smithsonian_steps, Hkey
      by assumption.
    reflexivity.
  - rewrite call_tool_get_item, get_item_details_steps, Hkey by assumption.
    reflexivity.
  - rewrite call_tool_get_category_terms, get_category_terms_steps, Hkey
      by assumption.
    reflexivity.
Qed.

(** X5.  An argument value that is not an object (null, a list, a
    string, a number) makes every declared tool answer with the attribute
    error as text; nothing is sent. *)
Theorem call_tool_arguments_not_an_object (w : world) (tool : Tool)
    (arguments : json) (tr : list request) :
  In tool list_tools ->
  isinstance_dict arguments = false ->
  call_tool w (name tool) arguments tr
  = (Ok [mk_TextContent "text"
           ("Error: '" ++ type_name arguments
              ++ "' object has no attribute 'get'")],
     tr).
Proof.
  intros Htool Hkind.
  destruct Htool as [<- | [<- | [<- | []]]];
    destruct arguments; try discriminate; reflexivity.
Qed.

(** X7.  [rows] is not validated: with a credential and a query, a
    [rows] argument that is not a number (a string, null, a list, an
    object) is answered by the comparison error of [min] as text, and
    nothing is sent. *)
Theorem search_collection_rows_not_a_number (w : world)
    (args : list (string * json)) (api_key : string) (tr : list request) :
  get_api_key w = Ok api_key ->
  truthy (field (JDict args) "query" JNull) = true ->
  is_number (field (JDict args) "rows" (JInt 10)) = false ->
  call_tool w "search_collection" (JDict args) tr
  = (Ok [mk_TextContent "text"
           ("Error: '<' not supported between instances of 'int' and '"
              ++ type_name (field (JDict args) "rows" (JInt 10)) ++ "'")],
     tr).
Proof.
  intros Hkey Hq Hrows.
  rewrite call_tool_search_collection, search_smithsonian_steps, Hkey
    by assumption.
  destruct (field (JDict args) "rows" (JInt 10)); try discriminate; reflexivity.
Qed.

Lemma sends_nothing (w : world) (tr : list request) : sends_at_most_one w tr tr.
Proof.
  exists []. split; [now rewrite app_nil_r |]. split; [cbn; lia | intros rq []].
Qed.

Lemma sends_one (w : world) (tr : list request) (api_key u : string)
    (ps : list (string * json)) :
  get_api_key w = Ok api_key ->
  dict_lookup "api_key" ps = Some (JStr api_key) ->
  sends_at_most_one w tr (tr ++ [mk_request u ps])%list.
Proof.
  intros Hkey Hps. eexists. split; [reflexivity |]. split; [cbn; lia |].
  intros rq [<- | []]. exists api_key. now split.
Qed.

Lemma answer_requests (format : json -> res string)
    (outcome : res json * list request) :
  snd (answer format outcome) = snd outcome.
Proof.
  destruct outcome as [[data | e] tr]; cbn; [| reflexivity].
  now destruct (format data).
Qed.

Lemma search_smithsonian_sends (w : world) (query rows start online_media : json)
    (tr : list request) :
  sends_at_most_one w tr
    (snd (search_smithsonian w query rows start online_media tr)).
Proof.
  rewrite search_smithsonian_steps.
  destruct (get_api_key w) as [api_key |] eqn:Hkey; [| apply sends_nothing].
  destruct (py_min_1000 rows); [| apply sends_nothing].
  apply (sends_one w tr api_key); [assumption |].
  now destruct (truthy online_media).
Qed.

Lemma get_item_details_sends (w : world) (item_id : json) (tr : list request) :
  sends_at_most_one w tr (snd (get_item_details w item_id tr)).
Proof.
  rewrite get_item_details_steps.
  destruct (get_api_key w) as [api_key |] eqn:Hkey; [| apply sends_nothing].
  now apply (sends_one w tr api_key).
Qed.

Lemma get_category_terms_sends (w : world) (category starts_with : json)
    (tr : list request) :
  sends_at_most_one w tr (snd (get_category_terms w category starts_with tr)).
Proof.
  rewrite get_category_terms_steps.
  destruct (get_api_key w) as [api_key |] eqn:Hkey; [| apply sends_nothing].
  apply (sends_one w tr api_key); [assumption |].
  now destruct (truthy starts_with).
Qed.

(** X6.  Whatever the tool name and the argument value, one call of the
    dispatcher keeps the requests issued before it and adds at most one;
    a request it adds carries, as [api_key], the key the resolver
    returns, so none is added when no key resolves. *)
Theorem call_tool_sends_at_most_one (w : world) (called : string)
    (arguments : json) (tr : list request) :
  sends_at_most_one w tr (snd (call_tool w called arguments tr)).
Proof.
  destruct (isinstance_dict arguments) eqn:Hkind.
  - destruct arguments as [| | | | | | args]; try discriminate.
    destruct (String.eqb_spec called "search_collection") as [-> | H1].
    { destruct (truthy (field (JDict args) "query" JNull)) eqn:Hq.
      - rewrite call_tool_search_collection, answer_requests by assumption.
        apply search_smithsonian_sends.
      - rewrite search_collection_requires_query by assumption.
        apply sends_nothing. }
    destruct (String.eqb_spec called "get_item") as [-> | H2].
    { destruct (truthy (field (JDict args) "item_id" JNull)) eqn:Hq.
      - rewrite call_tool_get_item, answer_requests by assumption.
        apply get_item_details_sends.
      - rewrite get_item_requires_item_id by assumption.
        apply sends_nothing. }
    destruct (String.eqb_spec called "get_category_terms") as [-> | H3].
    { destruct (truthy (field (JDict args) "category" JNull)) eqn:Hq.
      - rewrite call_tool_get_category_terms, answer_requests by assumption.
        apply get_category_terms_sends.
      - rewrite get_category_terms_requires_category by assumption.
        apply sends_nothing. }
    apply String.eqb_neq in H1, H2, H3.
    unfold call_tool, try_except. rewrite H1, H2, H3. apply sends_nothing.
  - unfold call_tool, try_except, io_bind, io_lift.
    destruct (String.eqb called "search_collection");
      [destruct arguments; try discriminate; apply sends_nothing |].
    destruct (String.eqb called "get_item");
      [destruct arguments; try discriminate; apply sends_nothing |].
    destruct (String.eqb called "get_category_terms");
      [destruct arguments; try discriminate; apply sends_nothing |].
    apply sends_nothing.
Qed.

Lemma py_get_other_key (k v : _) (args : list (string * json))
    (key : string) (default : json) :
  key <> k ->
  py_get (JDict ((k, v) :: args)) key default = py_get (JDict args) key default.
Proof.
  intros H. apply String.eqb_neq in H. cbn. now rewrite H.
Qed.

(** X9.  The dispatcher reads seven keys of the argument map and no
    other: a binding of any other key changes neither the answer nor the
    requests, for any tool name. *)
Theorem call_tool_ignores_other_keys (w : world) (called : string)
    (args : list (string * json)) (k : string) (v : json)
    (tr : list request) :
  ~ In k argument_keys ->
  call_tool w called (JDict ((k, v) :: args)) tr
  = call_tool w called (JDict args) tr.
Proof.
  intros H. unfold call_tool.
  rewrite !(py_get_other_key k v args)
    by (intros <-; apply H; cbn; tauto).
  reflexivity.
Qed.

Lemma py_get_default_key (k : string) (default : json)
    (args : list (string * json)) :
  dict_lookup k args = None ->
  py_get (JDict ((k, default) :: args)) k default = py_get (JDict args) k default.
Proof.
  intros H. cbn. now rewrite String.eqb_refl, H.
Qed.

(** X8.  The defaults the schemas declare are the defaults the dispatcher
    applies: for every declared tool and every parameter whose schema
    gives a default ([rows] 10, [start] 0, [online_media_only] false,
    [starts_with] the empty string), a call that leaves the parameter out
    does what the call that passes the default does. *)
Theorem call_tool_schema_defaults (w : world) (tool : Tool) (param : string)
    (v : json) (args : list (string * json)) (tr : list request) :
  In tool list_tools ->
  schema_default tool param = Some v ->
  dict_lookup param args = None ->
  call_tool w (name tool) (JDict ((param, v) :: args)) tr
  = call_tool w (name tool) (JDict args) tr.
Proof.
  intros Htool Hdefault Habsent.
  destruct Htool as [<- | [<- | [<- | []]]];
    unfold schema_default, field, inputSchema in Hdefault;
    cbn [dict_lookup String.eqb Ascii.eqb Bool.eqb] in Hdefault.
  - destruct (String.eqb_spec param "query") as [-> | _];
      [discriminate |].
    destruct (String.eqb_spec param "rows") as [-> | _].
    { injection Hdefault as <-. cbn [name]. unfold call_tool.
      rewrite (py_get_default_key _ _ _ Habsent), !py_get_other_key
        by discriminate.
      reflexivity. }
    destruct (String.eqb_spec param "start") as [-> | _].
    { injection Hdefault as <-. cbn [name]. unfold call_tool.
      rewrite (py_get_default_key _ _ _ Habsent), !py_get_other_key
        by discriminate.
      reflexivity. }
    destruct (String.eqb_spec param "online_media_only") as [-> | _];
      [| discriminate].
    injection Hdefault as <-. cbn [name]. unfold call_tool.
    rewrite (py_get_default_key _ _ _ Habsent), !py_get_other_key
      by discriminate.
    reflexivity.
  - destruct (String.eqb_spec param "item_id") as [-> | _]; discriminate.
  - destruct (String.eqb_spec param "category") as [-> | _];
      [discriminate |].
    destruct (String.eqb_spec param "starts_with") as [-> | _];
      [| discriminate].
    injection Hdefault as <-. cbn [name]. unfold call_tool.
    rewrite (py_get_default_key _ _ _ Habsent), !py_get_other_key
      by discriminate.
    reflexivity.
Qed.

(** X10.  The resolver prefers the variable as it is now and falls back
    on the value the module read at import: a key set now is returned
    whatever was there at import; a variable set to the empty string now
    fails even if a key was there at import; a variable unset now yields
    the key of import time, if there was one. *)
Theorem get_api_key_precedence (w : world) (key : string) :
  key <> "" ->
  (environ w "SMITHSONIAN_API_KEY" = Some key -> get_api_key w = Ok key)
  /\ (environ w "SMITHSONIAN_API_KEY" = Some "" ->
      get_api_key w = Raise missing_credential)
  /\ (environ w "SMITHSONIAN_API_KEY" = None ->
      import_environ w "SMITHSONIAN_API_KEY" = Some key ->
      get_api_key w = Ok key).
Proof.
  intros Hne. apply String.eqb_neq in Hne.
  rewrite get_api_key_reads.
  split; [| split].
  - intros ->. cbn zeta. now rewrite Hne.
  - now intros ->.
  - intros -> ->. cbn zeta. now rewrite Hne.
Qed.

(** X11.  A document without a [response] key is formatted as an empty
    response: zero results and no row; an untitled item of unknown id with
    an empty free-text section; a list of no terms. *)
Theorem formatters_without_response (d : list (string * json))
    (category : string) :
  dict_lookup "response" d = None ->
  format_search_results (JDict d)
  = Ok (String.concat LF ["Found 0 results"; "Showing 0 items:"; ""])
  /\ format_item_details (JDict d)
     = Ok (String.concat LF
             ["Item Details:"; ""; "Title: Untitled"; "ID: Unknown"; "";
              ""; "Additional Information:"])
  /\ format_category_terms (JStr category) (JDict d)
     = Ok (String.concat LF
             [("Available terms for '" ++ category ++ "':")%string; ""]).
Proof.
  intros H.
  unfold format_search_results, format_item_details, format_category_terms.
  cbn [py_get]. rewrite H. repeat split; reflexivity.
Qed.

Lemma search_row_lines_block (item : json) :
  exists middle,
    search_row_lines item
    = ("• " ++ py_str (field item "title" (JStr "Untitled")))
        :: ("  ID: " ++ py_str (field item "id" (JStr "Unknown ID")))
        :: (middle ++ [""])%list
    /\ (List.length middle <= 3)%nat.
Proof.
  unfold search_row_lines.
  set (desc := field (field item "content" (JDict []))
                 "descriptiveNonRepeating" (JDict [])).
  eexists. cbn [app]. split.
  - rewrite !app_assoc. reflexivity.
  - rewrite !length_app.
    destruct (truthy (field item "unitCode" (JStr "")));
      destruct (truthy (field desc "record_link" JNull));
      destruct (field desc "online_media" (JDict [])) as [| | | | | | [| x o]];
      cbn [List.length]; try lia;
      destruct (py_gt_zero _) as [[|] |]; cbn [List.length]; lia.
Qed.

(** X12.  On a search response of the expected shape every row of [rows]
    is listed, in order, whatever [rowCount] says: after the three header
    lines come as many blocks as there are rows, each made of the row's
    title line, its ID line, at most three more lines and an empty
    line. *)
Theorem search_rows_listed (data : json) :
  search_response_ok data = true ->
  let response := field data "response" (JDict []) in
  let rows := list_of (field response "rows" (JList [])) in
  exists blocks,
    format_search_results data
    = Ok (String.concat LF (search_header response ++ List.concat blocks)%list)
    /\ Forall2
         (fun item block =>
            exists middle,
              block
              = ("• " ++ py_str (field item "title" (JStr "Untitled")))
                  :: ("  ID: " ++ py_str (field item "id" (JStr "Unknown ID")))
                  :: (middle ++ [""])%list
              /\ (List.length middle <= 3)%nat)
         rows blocks.
Proof.
  intros Hshape response rows.
  exists (map search_row_lines rows). split.
  - rewrite format_search_results_lines by assumption.
    cbn zeta. now rewrite flat_map_concat_map.
  - clearbody rows. induction rows as [| item rows IH]; constructor;
      [apply search_row_lines_block | exact IH].
Qed.

(** X13.  The media line of a search row is printed exactly when the
    count is positive: a row without unit code and record link whose
    [online_media] holds the integer [mediaCount] [n] prints its title and
    ID, then "  Online Media: n items available" if [0 < n] and nothing
    otherwise, then an empty line. *)
Theorem search_row_media_count (i c ds om : list (string * json)) (n : Z)
    (s : list string) :
  dict_lookup "unitCode" i = None ->
  dict_lookup "content" i = Some (JDict c) ->
  dict_lookup "descriptiveNonRepeating" c = Some (JDict ds) ->
  dict_lookup "record_link" ds = None ->
  dict_lookup "online_media" ds = Some (JDict om) ->
  dict_lookup "mediaCount" om = Some (JInt n) ->
  let title_line := "• " ++ py_str (field (JDict i) "title" (JStr "Untitled")) in
  let id_line := "  ID: " ++ py_str (field (JDict i) "id" (JStr "Unknown ID")) in
  let media_line := "  Online Media: " ++ str_of_Z n ++ " items available" in
  search_row (JDict i) s
  = Ok (s ++ [title_line; id_line]
          ++ (if (0 <? n)%Z then [media_line] else [])
          ++ [""])%list.
Proof.
  intros Hunit Hc Hds Hlink Hom Hn title_line id_line media_line.
  subst title_line id_line media_line.
  rewrite search_row_appends.
  - unfold search_row_lines. cbn [field].
    rewrite Hunit, Hc. cbn [field]. rewrite Hds. cbn [field].
    rewrite Hlink, Hom.
    destruct om as [| x o]; [discriminate |].
    cbn [field]. rewrite Hn.
    cbn [truthy negb String.eqb py_gt_zero app py_str py_repr].
    now destruct (0 <? n)%Z.
  - unfold search_row_ok, absent_or. rewrite Hc, Hds, Hom.
    destruct om as [| x o]; [discriminate |].
    unfold media_counted, absent_or. now rewrite Hn.
Qed.

(** X14.  The terms formatter lists what iterating [terms] yields, one
    bullet line each under the header and an empty line: the elements of a
    list; and, without raising, the characters of a string and the keys of
    an object. *)
Theorem category_terms_listed (d r : list (string * json))
    (category terms : json) :
  dict_lookup "response" d = Some (JDict r) ->
  dict_lookup "terms" r = Some terms ->
  let listing (items : list string) :=
    Ok (String.concat LF
          (("Available terms for '" ++ py_str category ++ "':")
             :: "" :: map (fun item => "• " ++ item) items)) in
  match terms with
  | JList l => format_category_terms category (JDict d) = listing (map py_str l)
  | JStr s => format_category_terms category (JDict d) = listing (py_chars s)
  | JDict o => format_category_terms category (JDict d) = listing (map fst o)
  | _ => exists e, format_category_terms category (JDict d) = Raise e
  end.
Proof.
  intros Hr Hterms listing. unfold format_category_terms.
  cbn [py_get]. rewrite Hr. cbn [res_bind py_get]. rewrite Hterms.
  cbn [res_bind]. subst listing.
  destruct terms as [| | | | s | l | o]; cbn [py_iter res_bind];
    try (eexists; reflexivity);
    rewrite (for_each_appends (fun term => ["• " ++ py_str term]))
      by reflexivity;
    cbn [res_bind]; rewrite flat_map_singleton, !map_map; reflexivity.
Qed.

(** X15.  An item whose [content] is not an object (a string, a list,
    null) is formatted as its header alone: title, id and unit, with no
    media and no free-text section. *)
Theorem item_content_not_an_object (d r : list (string * json))
    (content : json) :
  dict_lookup "response" d = Some (JDict r) ->
  dict_lookup "content" r = Some content ->
  isinstance_dict content = false ->
  format_item_details (JDict d)
  = Ok (String.concat LF
          (["Item Details:";
            "";
            ("Title: " ++ py_str (field (JDict r) "title" (JStr "Untitled")))%string;
            ("ID: " ++ py_str (field (JDict r) "id" (JStr "Unknown")))%string]
             ++ (if truthy (field (JDict r) "unitCode" (JStr ""))
                 then [("Unit: " ++ py_str (field (JDict r) "unitCode" (JStr "")))%string]
                 else [])
             ++ [""])%list).
Proof.
  intros Hr Hc Hkind.
  rewrite format_item_details_lines.
  - unfold item_lines, item_header. cbn [field]. rewrite Hr. cbn [field].
    rewrite Hc. destruct content; try discriminate; now rewrite app_nil_r.
  - unfold item_response_ok, absent_or. rewrite Hr, Hc.
    now destruct content.
Qed.

(** X16.  The free-text section of an item depends on [freetext] alone.
    For an item whose media, if any, are in a list, the formatter returns
    the header and the descriptive lines followed by: the two lines of the
    bare section header when the key is absent, or when its fields hold
    nothing but empty lists and values that are not lists; nothing at all
    when [freetext] is not an object. *)
Theorem item_freetext_empty_or_missing (d r c : list (string * json)) :
  dict_lookup "response" d = Some (JDict r) ->
  dict_lookup "content" r = Some (JDict c) ->
  item_content_ok (JDict c) = true ->
  let before :=
    (item_header (JDict r)
       ++ item_descriptive (field (JDict c) "descriptiveNonRepeating" (JDict [])))%list in
  let bare :=
    Ok (String.concat LF (before ++ [""; "Additional Information:"])%list) in
  match dict_lookup "freetext" c with
  | None => format_item_details (JDict d) = bare
  | Some (JDict fields) =>
      (forall key values,
          In (key, values) fields ->
          isinstance_list values && truthy values = false) ->
      format_item_details (JDict d) = bare
  | Some _ => format_item_details (JDict d) = Ok (String.concat LF before)
  end.
Proof.
  intros Hr Hc Hok before bare.
  rewrite format_item_details_lines
    by (unfold item_response_ok, absent_or; now rewrite Hr, Hc).
  unfold item_lines, item_freetext. cbn [field].
  rewrite Hr. cbn [field]. rewrite Hc. cbn [field]. subst bare before.
  destruct (dict_lookup "freetext" c) as [[| | | | | | fields] |];
    rewrite ?app_nil_r, ?app_assoc; try reflexivity.
  intros Hempty. unfold freetext_block.
  replace (flat_map freetext_field_lines fields) with (@nil string);
    [reflexivity |].
  symmetry. induction fields as [| [key values] fields IH]; [reflexivity |].
  cbn [flat_map]. rewrite IH by (intros k v Hin; apply (Hempty k v); now right).
  specialize (Hempty key values (or_introl eq_refl)).
  unfold freetext_field_lines. cbn [snd].
  destruct values as [| | | | | [| v l] |]; try reflexivity; discriminate.
Qed.

End Server.

(** ** Closed examples *)

(** A process with a credential whose upstream answers every request with
    a 404, and one with no credential at all. *)
Definition failing_world : world :=
  let env := fun name =>
    if String.eqb name "SMITHSONIAN_API_KEY" then Some "DEMO_KEY" else None in
  mk_world env env
    (fun _ => Raise (mk_exn "HTTPStatusError" "Client error '404 Not Found'")).

Definition bare_world : world :=
  mk_world (fun _ => None) (fun _ => None) (fun _ => Ok (JDict [])).

Definition media_object (n : Z) : json :=
  JDict [("type", JStr "Images"); ("content", JStr ("https://ids.si.edu/" ++ str_of_Z n))].

(** An item whose [media] list has eight entries, [first] and seven
    objects. *)
Definition item_with_media (first : json) : list (string * json) :=
  [("response",
    JDict [("title", JStr "Apollo 11 Command Module");
           ("id", JStr "nasm_A19700102000");
           ("content",
            JDict [("descriptiveNonRepeating",
                    JDict [("online_media",
                            JDict [("mediaCount", JInt 8);
                                   ("media",
                                    JList (first :: map media_object
                                             [2; 3; 4; 5; 6; 7; 8]%Z))])]);
                   ("freetext",
                    JDict [("notes",
                            JList [JDict [("label", JStr "Summary");
                                          ("content", JStr "Flown in 1969")];
                                   JDict [("content", JStr "On display")];
                                   JStr "stray";
                                   JDict [("label", JStr "Fourth");
                                          ("content", JStr "not shown")]])])])])].

Definition search_document : json :=
  JDict [("response",
          JDict [("rowCount", JInt 1);
                 ("rows",
                  JList [JDict [("title", JStr "Apollo 11");
                                ("id", JStr "nasm_A1");
                                ("content",
                                 JDict [("descriptiveNonRepeating",
                                         JDict [("online_media",
                                                 JDict [("mediaCount", JInt 2)])])])]])])].

(** C1, counterexample.  Each formatter raises on a document in which one
    field has an unexpected kind: a search row whose [mediaCount] is a
    string, an item whose [media] is a number, a terms response whose
    [terms] is a number. *)
Lemma formatters_raise_on_unexpected_shape :
  format_search_results (R := sample_repr)
    (JDict [("response",
             JDict [("rows",
                     JList [JDict [("content",
                                    JDict [("descriptiveNonRepeating",
                                            JDict [("online_media",
                                                    JDict [("mediaCount",
                                                            JStr "3")])])])]])])])
  = Raise (TypeError "'>' not supported between instances of 'str' and 'int'")
  /\ format_item_details (R := sample_repr)
       (JDict [("response",
                JDict [("content",
                        JDict [("descriptiveNonRepeating",
                                JDict [("online_media",
                                        JDict [("media", JInt 5)])])])])])
     = Raise (TypeError "'int' object is not subscriptable")
  /\ format_category_terms (R := sample_repr) (JStr "topic")
       (JDict [("response", JDict [("terms", JInt 3)])])
     = Raise (TypeError "'int' object is not iterable").
Proof. repeat split; reflexivity. Qed.

(** The search formatter reads [content] twice: behind [isinstance] for
    the record link, and again, unguarded, for the media count.  A row
    whose [content] is a string passes the first and raises at the
    second. *)
Example search_row_content_read_unguarded :
  format_search_results (R := sample_repr)
    (JDict [("response",
             JDict [("rows", JList [JDict [("title", JStr "Apollo 11");
                                           ("content", JStr "n/a")]])])])
  = Raise (AttributeError "'str' object has no attribute 'get'").
Proof. reflexivity. Qed.

(** Rows without [unitCode] are listed without a "Unit:" line. *)
Example search_rows_without_unit_code :
  format_search_results (R := sample_repr)
    (JDict [("response",
             JDict [("rowCount", JInt 3);
                    ("rows",
                     JList [JDict [("title", JStr "A"); ("id", JStr "1")];
                            JDict [("title", JStr "B"); ("id", JStr "2")];
                            JDict [("title", JStr "C"); ("id", JStr "3")]])])])
  = Ok (String.concat LF
          ["Found 3 results"; "Showing 3 items:"; "";
           "• A"; "  ID: 1"; "";
           "• B"; "  ID: 2"; "";
           "• C"; "  ID: 3"; ""]).
Proof. reflexivity. Qed.

Lemma formatters_return_on_expected_shape_witness :
  (search_response_ok search_document = true
   /\ exists s, format_search_results (R := sample_repr) search_document = Ok s)
  /\ (item_response_ok (JDict (item_with_media (JStr "stray"))) = true
      /\ exists s,
           format_item_details (R := sample_repr)
             (JDict (item_with_media (JStr "stray"))) = Ok s)
  /\ (terms_response_ok (JDict [("response", JDict [("terms", JList [JStr "Art"])])])
      = true
      /\ exists s,
           format_category_terms (R := sample_repr) (JStr "topic")
             (JDict [("response", JDict [("terms", JList [JStr "Art"])])]) = Ok s).
Proof.
  pose proof (@formatters_return_on_expected_shape sample_repr) as (Hs & Hi & Ht).
  repeat split.
  - apply Hs. reflexivity.
  - apply Hi. reflexivity.
  - apply Ht. reflexivity.
Defined.

Lemma call_tool_catches_errors_witness :
  get_item_details (R := sample_repr) failing_world (JStr "X") []
  = (Raise (mk_exn "HTTPStatusError" "Client error '404 Not Found'"),
     [mk_request "https://api.si.edu/openaccess/api/v1.0/content/X"
        [("api_key", JStr "DEMO_KEY")]])
  /\ call_tool (R := sample_repr) failing_world "get_item"
       (JDict [("item_id", JStr "X")]) []
     = (Ok [mk_TextContent "text" "Error: Client error '404 Not Found'"],
        [mk_request "https://api.si.edu/openaccess/api/v1.0/content/X"
           [("api_key", JStr "DEMO_KEY")]])
  /\ call_tool (R := sample_repr) bare_world "search_collection"
       (JDict [("query", JStr "apollo")]) []
     = (Ok [mk_TextContent "text"
              "Error: SMITHSONIAN_API_KEY environment variable is required. Get your free API key at https://api.data.gov/signup/"],
        []).
Proof.
  split; [reflexivity | split].
  - exact (proj1 (proj2 (proj2
             (@call_tool_catches_errors sample_repr failing_world "get_item"
                (JDict [("item_id", JStr "X")]) [])))
             [("item_id", JStr "X")]
             (mk_exn "HTTPStatusError" "Client error '404 Not Found'")
             [mk_request "https://api.si.edu/openaccess/api/v1.0/content/X"
                [("api_key", JStr "DEMO_KEY")]]
             eq_refl eq_refl eq_refl).
  - exact (proj1 (proj2
             (@call_tool_catches_errors sample_repr bare_world "search_collection"
                (JDict [("query", JStr "apollo")]) []))
             [("query", JStr "apollo")] missing_credential []
             eq_refl eq_refl eq_refl).
Defined.

Lemma call_tool_missing_argument_witness :
  dict_lookup "item_id" [("query", JStr "apollo")] = None
  /\ call_tool (R := sample_repr) failing_world "get_item"
       (JDict [("query", JStr "apollo")]) []
     = (Ok [mk_TextContent "text" "Error: item_id parameter is required"], []).
Proof.
  split; [reflexivity |].
  apply (proj1 (@call_tool_missing_argument sample_repr failing_world
                  [("query", JStr "apollo")] [])
           (nth 1 list_tools (mk_Tool "" "" JNull)) "item_id").
  - right; left; reflexivity.
  - left; reflexivity.
  - reflexivity.
Defined.

Lemma call_tool_unknown_tool_witness :
  ~ In "anything_else" (map name list_tools)
  /\ call_tool (R := sample_repr) failing_world "anything_else" (JDict []) []
  = (Ok [mk_TextContent "text" "Error: Unknown tool 'anything_else'"], []).
Proof.
  assert (H : ~ In "anything_else" (map name list_tools))
    by (cbn; intros [H | [H | [H | []]]]; discriminate H).
  split; [exact H |].
  now apply (@call_tool_unknown_tool sample_repr).
Defined.

Lemma call_tool_falsy_argument_witness :
  truthy (JStr "") = false
  /\ dict_lookup "category" [("category", JStr ""); ("starts_with", JStr "A")]
     = Some (JStr "")
  /\ call_tool (R := sample_repr) failing_world "get_category_terms"
       (JDict [("category", JStr ""); ("starts_with", JStr "A")]) []
     = (Ok [mk_TextContent "text" "Error: category parameter is required"], []).
Proof.
  split; [reflexivity | split; [reflexivity |]].
  apply (@call_tool_falsy_argument sample_repr failing_world
           [("category", JStr ""); ("starts_with", JStr "A")] (JStr "") []
           eq_refl (nth 2 list_tools (mk_Tool "" "" JNull)) "category").
  - right; right; left; reflexivity.
  - left; reflexivity.
  - reflexivity.
Defined.

(** C7, counterexample.  Eight media entries, the first of them a string:
    four media lines are printed, not five. *)
Lemma eight_media_entries_four_lines :
  format_item_details (R := sample_repr) (JDict (item_with_media (JStr "stray")))
  = Ok (String.concat LF
          ["Item Details:";
           "";
           "Title: Apollo 11 Command Module";
           "ID: nasm_A19700102000";
           "";
           "";
           "Online Media:";
           "  Total Items: 8";
           "  - Images: https://ids.si.edu/2";
           "  - Images: https://ids.si.edu/3";
           "  - Images: https://ids.si.edu/4";
           "  - Images: https://ids.si.edu/5";
           "";
           "Additional Information:";
           "  notes:";
           "    Summary: Flown in 1969";
           "    On display"]).
Proof. reflexivity. Qed.

Lemma item_media_lines_witness :
  format_item_details (R := sample_repr)
    (JDict (item_with_media (media_object 1)))
  = Ok (String.concat LF
          ["Item Details:";
           "";
           "Title: Apollo 11 Command Module";
           "ID: nasm_A19700102000";
           "";
           "";
           "Online Media:";
           "  Total Items: 8";
           "  - Images: https://ids.si.edu/1";
           "  - Images: https://ids.si.edu/2";
           "  - Images: https://ids.si.edu/3";
           "  - Images: https://ids.si.edu/4";
           "  - Images: https://ids.si.edu/5";
           "";
           "Additional Information:";
           "  notes:";
           "    Summary: Flown in 1969";
           "    On display"])
  /\ List.length
       (map (media_line (R := sample_repr))
          (filter isinstance_dict
             (firstn 5 (map media_object [1; 2; 3; 4; 5; 6; 7; 8]%Z)))) = 5%nat.
Proof.
  edestruct (@item_media_lines sample_repr (item_with_media (media_object 1)))
    as (Hout & _ & Hfive);
    [reflexivity | reflexivity | reflexivity | reflexivity | discriminate
    | reflexivity |].
  split; [exact Hout | apply Hfive; reflexivity].
Defined.

Lemma item_freetext_section_witness :
  format_item_details (R := sample_repr)
    (JDict (item_with_media (JStr "stray")))
  = Ok (String.concat LF
          ["Item Details:";
           "";
           "Title: Apollo 11 Command Module";
           "ID: nasm_A19700102000";
           "";
           "";
           "Online Media:";
           "  Total Items: 8";
           "  - Images: https://ids.si.edu/2";
           "  - Images: https://ids.si.edu/3";
           "  - Images: https://ids.si.edu/4";
           "  - Images: https://ids.si.edu/5";
           "";
           "Additional Information:";
           "  notes:";
           "    Summary: Flown in 1969";
           "    On display"]).
Proof.
  edestruct (@item_freetext_section sample_repr (item_with_media (JStr "stray")))
    as (Hout & _); [reflexivity | reflexivity | reflexivity | reflexivity |].
  exact Hout.
Defined.

(** C8, counterexample.  An item with a free-text field whose [media] is
    a number: the formatter raises at the slice of line 223, before the
    free-text section, and returns no text at all. *)
Lemma freetext_item_with_unlisted_media_raises :
  format_item_details (R := sample_repr)
    (JDict [("response",
             JDict [("title", JStr "Moon rock");
                    ("content",
                     JDict [("descriptiveNonRepeating",
                             JDict [("online_media",
                                     JDict [("mediaCount", JInt 1);
                                            ("media", JInt 5)])]);
                            ("freetext",
                             JDict [("notes",
                                     JList [JDict [("content",
                                                    JStr "On display")]])])])])])
  = Raise (TypeError "'int' object is not subscriptable").
Proof. reflexivity. Qed.

(** C6, counterexample.  The variable is unset at the call but was set
    when the module was imported: the resolver does not fail, it returns
    the key of import time. *)
Lemma get_api_key_returns_import_time_key :
  environ
    (mk_world
       (fun name =>
          if String.eqb name "SMITHSONIAN_API_KEY" then Some "STALE_KEY" else None)
       (fun _ => None)
       (fun _ => Ok JNull)) "SMITHSONIAN_API_KEY" = None
  /\ get_api_key
       (mk_world
          (fun name =>
             if String.eqb name "SMITHSONIAN_API_KEY" then Some "STALE_KEY" else None)
          (fun _ => None)
          (fun _ => Ok JNull))
     = Ok "STALE_KEY".
Proof. split; reflexivity. Qed.

Lemma search_header_counts_witness :
  exists count rest,
    count = "1"
    /\ String.concat LF
         ["Found 1 results";
          "Showing 1 items:";
          "";
          "• Apollo 11";
          "  ID: nasm_A1";
          "  Online Media: 2 items available";
          ""]
       = String.concat LF
           (("Found " ++ count ++ " results")
              :: ("Showing " ++ count ++ " items:") :: "" :: rest).
Proof.
  apply (proj1 (@search_header_counts sample_repr) search_document).
  reflexivity.
Defined.

Example str_of_Z_samples :
  str_of_Z 0 = "0" /\ str_of_Z 1000 = "1000" /\ str_of_Z (-7) = "-7".
Proof. repeat split; reflexivity. Qed.

Example py_chars_sample : py_chars "a•b" = ["a"; "•"; "b"].
Proof. reflexivity. Qed.

(** ** The smoke script [test_api.py]

    The script prints as it goes: a computation of the script threads the
    requests issued and the lines printed, each [print] adding one entry.
    Its [load_dotenv] runs after the server module is imported, so the
    script runs in a [world] whose [environ] is the environment after the
    load. *)

Module TestApi.
Section Script.
Context {R : PyRepr}.

Definition console : Type := (list request * list string)%type.

Definition script (A : Type) : Type := console -> res A * console.

Definition script_ret {A : Type} (a : A) : script A := fun c => (Ok a, c).

Definition script_bind {A B : Type} (m : script A) (k : A -> script B)
  : script B :=
  fun c =>
    match m c with
    | (Ok a, c') => k a c'
    | (Raise e, c') => (Raise e, c')
    end.

(** [print(line)] *)
Definition print (line : string) : script unit :=
  fun c => (Ok tt, (fst c, (snd c ++ [line])%list)).

(** [await] of an adapter. *)
Definition await {A : Type} (m : io A) : script A :=
  fun c => let (r, tr) := m (fst c) in (r, (tr, snd c)).

Definition script_lift {A : Type} (r : res A) : script A := fun c => (r, c).

Definition script_try {A : Type} (body : script A) (handler : exn -> script A)
  : script A :=
  fun c =>
    match body c with
    | (Ok a, c') => (Ok a, c')
    | (Raise e, c') => handler e c'
    end.

Declare Scope script_scope.
Delimit Scope script_scope with script.
Notation "x <- m ;; k" := (script_bind m (fun x => k))
  (at level 61, m at next level, right associativity) : script_scope.
Notation "m ;;; k" := (script_bind m (fun _ => k))
  (at level 61, right associativity) : script_scope.

(** [v[0]] *)
Definition py_first (v : json) : res json :=
  match v with
  | JList (x :: _) => Ok x
  | JList [] => Raise (mk_exn "IndexError" "list index out of range")
  | JStr s =>
      match py_chars s with
      | ch :: _ => Ok (JStr ch)
      | [] => Raise (mk_exn "IndexError" "string index out of range")
      end
  | JDict _ => Raise (mk_exn "KeyError" "0")
  | _ => Raise (TypeError
                  ("'" ++ type_name v ++ "' object is not subscriptable"))
  end.

(** ["-" * 50] and ["=" * 50] *)
Definition rule (ch : string) : string := String.concat "" (repeat ch 50).

(** [test_api.py], lines 12-40. *)
Definition test_search (w : world) : script json :=
  (print "Testing Smithsonian API search..." ;;;
   print (rule "-") ;;;
   script_try
     (results <- await (search_smithsonian w (JStr "apollo 11") (JInt 5)
                          (JInt 0) (JBool true)) ;;
      print "[OK] Search successful!" ;;;
      response <- script_lift (py_get results "response" (JDict [])) ;;
      row_count <- script_lift (py_get response "rowCount" (JInt 0)) ;;
      print ("  Found " ++ py_str row_count ++ " results") ;;;
      response <- script_lift (py_get results "response" (JDict [])) ;;
      rows <- script_lift (py_get response "rows" (JList [])) ;;
      if truthy rows then
        first_item <- script_lift (py_first rows) ;;
        print (LF ++ "  First result:") ;;;
        title <- script_lift (py_get first_item "title" (JStr "N/A")) ;;
        print ("    Title: " ++ py_str title) ;;;
        shown_id <- script_lift (py_get first_item "id" (JStr "N/A")) ;;
        print ("    ID: " ++ py_str shown_id) ;;;
        item_id <- script_lift (py_get first_item "id" JNull) ;;
        script_ret item_id
      else script_ret JNull)
     (fun e =>
        print ("[FAIL] Search failed: " ++ exn_str e) ;;;
        script_ret JNull))%script.

(** [test_api.py], lines 43-61. *)
Definition test_get_item (w : world) (item_id : json) : script unit :=
  (if negb (truthy item_id) then
     print (LF ++ "Skipping item details test (no item ID)")
   else
     print (LF ++ "Testing item details for ID: " ++ py_str item_id) ;;;
     print (rule "-") ;;;
     script_try
       (details <- await (get_item_details w item_id) ;;
        print "[OK] Item details retrieved successfully!" ;;;
        response <- script_lift (py_get details "response" (JDict [])) ;;
        title <- script_lift (py_get response "title" (JStr "N/A")) ;;
        print ("  Title: " ++ py_str title) ;;;
        unit_code <- script_lift (py_get response "unitCode" (JStr "N/A")) ;;
        print ("  Unit: " ++ py_str unit_code))
       (fun e => print ("[FAIL] Get item failed: " ++ exn_str e)))%script.

(** [test_api.py], lines 64-84. *)
Definition main (w : world) : script unit :=
  (print "Smithsonian MCP Server API Test" ;;;
   print (rule "=") ;;;
   match environ w "SMITHSONIAN_API_KEY" with
   | Some api_key =>
       if negb (truthy (JStr api_key)) then
         print "[FAIL] Error: SMITHSONIAN_API_KEY environment variable not set" ;;;
         print "  Please set it in your .env file or environment"
       else
         print ("[OK] API key found: "
                  ++ String.concat "" (firstn 10 (py_chars api_key)) ++ "...") ;;;
         print "" ;;;
         item_id <- test_search w ;;
         test_get_item w item_id ;;;
         print (LF ++ rule "=") ;;;
         print "Tests completed!"
   | None =>
       print "[FAIL] Error: SMITHSONIAN_API_KEY environment variable not set" ;;;
       print "  Please set it in your .env file or environment"
   end)%script.

Ltac run_script :=
  unfold script_bind, script_try, print, await, script_lift, script_ret;
  cbn [fst snd].

Ltac break_script :=
  repeat match goal with
         | |- context [match ?x with _ => _ end] =>
             lazymatch x with
             | context [match _ with _ => _ end] => fail
             | _ => destruct x eqn:?; cbn [fst snd res_bind]
             end
         end.

Ltac tidy_console :=
  cbn [fst snd]; repeat (rewrite <- ?app_assoc; cbn [app]).

(** The search of the script never raises and sends its one fixed query
    when a key resolves. *)
Lemma test_search_runs (w : world) (c : console) :
  exists item_id printed,
    test_search w c
    = (Ok item_id,
       ((fst c ++ match get_api_key w with
                  | Ok api_key => [search_request api_key "apollo 11" 5 0 true]
                  | Raise _ => []
                  end)%list,
        (snd c ++ printed)%list)).
Proof.
  unfold test_search. run_script. rewrite search_smithsonian_steps.
  destruct (get_api_key w) as [api_key | e]; cbn [py_min_1000 Z.ltb Z.compare
    Pos.compare Pos.compare_cont truthy fst snd].
  - break_script; tidy_console; do 2 eexists; reflexivity.
  - tidy_console. rewrite app_nil_r. do 2 eexists; reflexivity.
Qed.

(** The item check of the script never raises; it sends one request for
    an id that is truthy when a key resolves, and nothing otherwise. *)
Lemma test_get_item_runs (w : world) (item_id : json) (c : console) :
  exists printed,
    test_get_item w item_id c
    = (Ok tt,
       ((fst c ++ if truthy item_id
                  then match get_api_key w with
                       | Ok api_key =>
                           [mk_request
                              ("https://api.si.edu/openaccess/api/v1.0/content/"
                                 ++ py_str item_id)
                              [("api_key", JStr api_key)]]
                       | Raise _ => []
                       end
                  else [])%list,
        (snd c ++ printed)%list)).
Proof.
  unfold test_get_item. destruct (truthy item_id); cbn [negb].
  - run_script. rewrite get_item_details_steps.
    destruct (get_api_key w) as [api_key | e]; cbn [fst snd].
    + break_script; tidy_console; eexists; reflexivity.
    + tidy_console. rewrite app_nil_r. eexists; reflexivity.
  - run_script. rewrite app_nil_r. eexists; reflexivity.
Qed.



Lemma get_api_key_now (w : world) (api_key : string) :
  environ w "SMITHSONIAN_API_KEY" = Some api_key ->
  api_key <> "" ->
  get_api_key w = Ok api_key.
Proof.
  intros Henv Hne. apply String.eqb_neq in Hne.
  rewrite get_api_key_reads, Henv. cbn zeta. now rewrite Hne.
Qed.


End Script.
End TestApi.

(** ** Closed examples for the further properties *)

(** A process with a credential whose upstream answers a search with
    [search_document], an item request with an item of eight media and a
    terms request with two terms. *)
Definition demo_world : world :=
  let env := fun name =>
    if String.eqb name "SMITHSONIAN_API_KEY" then Some "DEMO_KEY" else None in
  mk_world (fun _ => None) env
    (fun rq =>
       if String.prefix "https://api.si.edu/openaccess/api/v1.0/search" (url rq)
       then Ok search_document
       else if String.prefix "https://api.si.edu/openaccess/api/v1.0/content/"
                 (url rq)
       then Ok (JDict (item_with_media (media_object 1)))
       else Ok (JDict [("response",
                        JDict [("terms", JList [JStr "Art"; JStr "Science"])])])).

Lemma search_collection_end_to_end_witness :
  call_tool (R := sample_repr) demo_world "search_collection"
    (JDict [("query", JStr "apollo"); ("rows", JInt 5000)]) []
  = (Ok [mk_TextContent "text"
           (String.concat LF
              ["Found 1 results"; "Showing 1 items:"; "";
               "• Apollo 11"; "  ID: nasm_A1";
               "  Online Media: 2 items available"; ""])],
     [mk_request "https://api.si.edu/openaccess/api/v1.0/search"
        [("api_key", JStr "DEMO_KEY"); ("q", JStr "apollo");
         ("rows", JInt 1000); ("start", JInt 0)]]).
Proof.
  rewrite (@search_collection_end_to_end sample_repr demo_world _
             "DEMO_KEY" "apollo" 5000 0 false []);
    [reflexivity | reflexivity | reflexivity | discriminate
    | reflexivity | reflexivity | reflexivity].
Defined.

Lemma get_item_end_to_end_witness :
  call_tool (R := sample_repr) demo_world "get_item"
    (JDict [("item_id", JStr "nasm_A19700102000")]) []
  = answer (format_item_details (R := sample_repr))
      (Ok (JDict (item_with_media (media_object 1))),
       [mk_request
          "https://api.si.edu/openaccess/api/v1.0/content/nasm_A19700102000"
          [("api_key", JStr "DEMO_KEY")]]).
Proof.
  rewrite (@get_item_end_to_end sample_repr demo_world _
             "DEMO_KEY" "nasm_A19700102000" []);
    [reflexivity | reflexivity | reflexivity | reflexivity].
Defined.

Lemma get_category_terms_end_to_end_witness :
  call_tool (R := sample_repr) demo_world "get_category_terms"
    (JDict [("category", JStr "topic"); ("starts_with", JStr "A")]) []
  = (Ok [mk_TextContent "text"
           (String.concat LF
              ["Available terms for 'topic':"; ""; "• Art"; "• Science"])],
     [mk_request "https://api.si.edu/openaccess/api/v1.0/terms/topic"
        [("api_key", JStr "DEMO_KEY"); ("category", JStr "topic");
         ("starts_with", JStr "A")]]).
Proof.
  rewrite (@get_category_terms_end_to_end sample_repr demo_world _
             "DEMO_KEY" "topic" "A" []);
    [reflexivity | reflexivity | reflexivity | reflexivity | reflexivity].
Defined.

Lemma call_tool_without_credential_witness :
  call_tool (R := sample_repr) bare_world "get_category_terms"
    (JDict [("category", JStr "topic")]) []
  = (Ok [mk_TextContent "text"
           "Error: SMITHSONIAN_API_KEY environment variable is required. Get your free API key at https://api.data.gov/signup/"],
     []).
Proof.
  apply (@call_tool_without_credential sample_repr bare_world
           [("category", JStr "topic")]
           (nth 2 list_tools (mk_Tool "" "" JNull)) "category"
           missing_credential []).
  - right; right; left; reflexivity.
  - left; reflexivity.
  - reflexivity.
  - reflexivity.
Defined.

Lemma call_tool_arguments_not_an_object_witness :
  call_tool (R := sample_repr) demo_world "get_item" JNull []
  = (Ok [mk_TextContent "text"
           "Error: 'NoneType' object has no attribute 'get'"], []).
Proof.
  apply (@call_tool_arguments_not_an_object sample_repr demo_world
           (nth 1 list_tools (mk_Tool "" "" JNull)) JNull []).
  - right; left; reflexivity.
  - reflexivity.
Defined.

Lemma search_collection_rows_not_a_number_witness :
  call_tool (R := sample_repr) demo_world "search_collection"
    (JDict [("query", JStr "apollo"); ("rows", JStr "5")]) []
  = (Ok [mk_TextContent "text"
           "Error: '<' not supported between instances of 'int' and 'str'"],
     []).
Proof.
  apply (@search_collection_rows_not_a_number sample_repr demo_world
           [("query", JStr "apollo"); ("rows", JStr "5")] "DEMO_KEY" []);
    reflexivity.
Defined.

Lemma call_tool_schema_defaults_witness :
  call_tool (R := sample_repr) demo_world "search_collection"
    (JDict [("rows", JInt 10); ("query", JStr "apollo")]) []
  = call_tool (R := sample_repr) demo_world "search_collection"
      (JDict [("query", JStr "apollo")]) [].
Proof.
  apply (@call_tool_schema_defaults sample_repr demo_world
           (nth 0 list_tools (mk_Tool "" "" JNull)) "rows" (JInt 10)
           [("query", JStr "apollo")] []).
  - left; reflexivity.
  - reflexivity.
  - reflexivity.
Defined.

Lemma call_tool_ignores_other_keys_witness :
  call_tool (R := sample_repr) demo_world "get_item"
    (JDict [("limit", JInt 3); ("item_id", JStr "X")]) []
  = call_tool (R := sample_repr) demo_world "get_item"
      (JDict [("item_id", JStr "X")]) [].
Proof.
  apply (@call_tool_ignores_other_keys sample_repr).
  cbn. intros H. repeat destruct H as [H | H]; try discriminate H. exact H.
Defined.

Lemma get_api_key_precedence_witness :
  get_api_key demo_world = Ok "DEMO_KEY".
Proof.
  apply (proj1 (get_api_key_precedence demo_world "DEMO_KEY"
                  ltac:(discriminate))).
  reflexivity.
Defined.

Lemma formatters_without_response_witness :
  format_search_results (R := sample_repr) (JDict [("error", JStr "rate limit")])
  = Ok (String.concat LF ["Found 0 results"; "Showing 0 items:"; ""]).
Proof.
  apply (proj1 (@formatters_without_response sample_repr
                  [("error", JStr "rate limit")] "topic" eq_refl)).
Defined.

Lemma search_rows_listed_witness :
  exists blocks,
    format_search_results (R := sample_repr) search_document
    = Ok (String.concat LF
            (["Found 1 results"; "Showing 1 items:"; ""] ++ List.concat blocks)%list)
    /\ List.length blocks = 1%nat.
Proof.
  destruct (@search_rows_listed sample_repr search_document eq_refl)
    as (blocks & Hout & Hrows).
  exists blocks. split; [exact Hout |].
  apply Forall2_length in Hrows. now rewrite <- Hrows.
Defined.

Lemma search_row_media_count_witness :
  search_row (R := sample_repr)
    (JDict [("title", JStr "Moon rock");
            ("content",
             JDict [("descriptiveNonRepeating",
                     JDict [("online_media", JDict [("mediaCount", JInt 0)])])])])
    []
  = Ok ["• Moon rock"; "  ID: Unknown ID"; ""].
Proof.
  apply (@search_row_media_count sample_repr
           [("title", JStr "Moon rock");
            ("content",
             JDict [("descriptiveNonRepeating",
                     JDict [("online_media", JDict [("mediaCount", JInt 0)])])])]
           [("descriptiveNonRepeating",
             JDict [("online_media", JDict [("mediaCount", JInt 0)])])]
           [("online_media", JDict [("mediaCount", JInt 0)])]
           [("mediaCount", JInt 0)] 0 []); reflexivity.
Defined.

Lemma category_terms_listed_witness :
  format_category_terms (R := sample_repr) (JStr "topic")
    (JDict [("response", JDict [("terms", JStr "Art")])])
  = Ok (String.concat LF
          ["Available terms for 'topic':"; ""; "• A"; "• r"; "• t"]).
Proof.
  apply (@category_terms_listed sample_repr
           [("response", JDict [("terms", JStr "Art")])]
           [("terms", JStr "Art")] (JStr "topic") (JStr "Art"));
    reflexivity.
Defined.

Lemma item_content_not_an_object_witness :
  format_item_details (R := sample_repr)
    (JDict [("response",
             JDict [("title", JStr "Moon rock"); ("content", JStr "n/a")])])
  = Ok (String.concat LF
          ["Item Details:"; ""; "Title: Moon rock"; "ID: Unknown"; ""]).
Proof.
  apply (@item_content_not_an_object sample_repr
           [("response",
             JDict [("title", JStr "Moon rock"); ("content", JStr "n/a")])]
           [("title", JStr "Moon rock"); ("content", JStr "n/a")]
           (JStr "n/a")); reflexivity.
Defined.

Lemma item_freetext_empty_or_missing_witness :
  format_item_details (R := sample_repr)
    (JDict [("response",
             JDict [("title", JStr "Moon rock");
                    ("content",
                     JDict [("freetext",
                             JDict [("notes", JList []);
                                    ("date", JStr "1969")])])])])
  = Ok (String.concat LF
          ["Item Details:"; ""; "Title: Moon rock"; "ID: Unknown"; "";
           ""; "Additional Information:"]).
Proof.
  refine (@item_freetext_empty_or_missing sample_repr
            [("response",
              JDict [("title", JStr "Moon rock");
                     ("content",
                      JDict [("freetext",
                              JDict [("notes", JList []); ("date", JStr "1969")])])])]
            [("title", JStr "Moon rock");
             ("content",
              JDict [("freetext",
                      JDict [("notes", JList []); ("date", JStr "1969")])])]
            [("freetext", JDict [("notes", JList []); ("date", JStr "1969")])]
            eq_refl eq_refl eq_refl _).
  intros key values [[= <- <-] | [[= <- <-] | []]]; reflexivity.
Defined.



